(** * Skill validator (scripts/validate-skill.py)

    A shallow embedding of [SkillValidator] and of the Python primitives it
    calls, followed by the properties of a validation run.

    Conventions of the embedding.
    - A Python [str] is a [string]; one [ascii] stands for one character
      (code points below 256).
    - The two accumulators [self.errors] and [self.warnings] are the fields
      of [run_state]; every method is a function from the state before to an
      [outcome]: the value returned together with the state after, or the
      exception that leaves the method.
    - The file system is read once per run; what the run can observe of it
      is the [fs_state] of the skill path.
    - [yaml.safe_load] belongs to PyYAML, not to this repository.  The
      validator takes it as a parameter ([safe_load]); every general theorem
      holds for all decoders.  [PyYAML.safe_load] is a decoder for a small
      fragment of YAML on which examples are evaluated. *)

From Stdlib Require Import Bool Arith Lia List Ascii String ZArith DecimalString.
Import ListNotations.
Open Scope list_scope.
Open Scope string_scope.

(** ** Python strings *)

Module PyStr.

(** The line feed character and the one-character string holding it. *)
Definition LF : ascii := "010"%char.
Definition nl : string := String LF "".

(** [s[n:]] *)
Fixpoint drop (n : nat) (s : string) : string :=
  match n, s with
  | 0, _ => s
  | S _, "" => ""
  | S n', String _ s' => drop n' s'
  end.

(** [s.startswith(pre)] *)
Definition startswith (pre s : string) : bool := prefix pre s.

(** [s.partition(sep)] when [sep] occurs in [s]: the text before the
    leftmost occurrence of [sep] and the text after it. *)
Fixpoint find_cut (sep s : string) : option (string * string) :=
  if prefix sep s then Some ("", drop (length sep) s)
  else match s with
       | "" => None
       | String c s' =>
           match find_cut sep s' with
           | Some (a, b) => Some (String c a, b)
           | None => None
           end
       end.

(** [sub in s] *)
Definition contains (sub s : string) : bool :=
  match find_cut sub s with Some _ => true | None => false end.

(** [s.split(sep, n)] for a non-negative [n]: at most [n] cuts, taken
    left to right. *)
Fixpoint split_upto (n : nat) (sep s : string) : list string :=
  match n with
  | 0 => [s]
  | S n' =>
      match find_cut sep s with
      | None => [s]
      | Some (a, b) => a :: split_upto n' sep b
      end
  end.

(** [s.split(sep, maxsplit)]; [None] is Python's default [maxsplit=-1]
    (no limit).  A non-empty separator cannot be cut out of [s] more than
    [length s] times, so that bound stands for "no limit". *)
Definition split (sep : string) (maxsplit : option nat) (s : string)
  : list string :=
  split_upto (match maxsplit with Some n => n | None => length s end) sep s.

(** Number of occurrences of the character [c]. *)
Fixpoint count_char (c : ascii) (s : string) : nat :=
  match s with
  | "" => 0
  | String c' s' => (if Ascii.eqb c c' then 1 else 0) + count_char c s'
  end.

(** [c.lower()] on code points below 256: the letters A-Z and the
    Latin-1 capitals U+00C0-U+00DE (the sign U+00D7 apart) move up by 32. *)
Definition lower_char (c : ascii) : ascii :=
  let n := nat_of_ascii c in
  if (((65 <=? n) && (n <=? 90))
      || ((192 <=? n) && (n <=? 222) && negb (n =? 215)))%nat
  then ascii_of_nat (n + 32) else c.

(** [s.lower()] *)
Fixpoint lower (s : string) : string :=
  match s with
  | "" => ""
  | String c s' => String (lower_char c) (lower s')
  end.

(** [s.startswith((p1, p2, ...))] *)
Definition startswith_any (pres : list string) (s : string) : bool :=
  existsb (fun p => startswith p s) pres.

(** [str(n)] for a natural number. *)
Definition of_nat (n : nat) : string :=
  NilEmpty.string_of_uint (Nat.to_uint n).

(** [str(z)] for an integer. *)
Definition of_Z (z : Z) : string :=
  NilEmpty.string_of_int (Z.to_int z).

(** [all(p(c) for c in s)] *)
Fixpoint all_chars (p : ascii -> bool) (s : string) : bool :=
  match s with
  | "" => true
  | String c s' => p c && all_chars p s'
  end.

End PyStr.

(** ** Regular expressions (the part of Python's [re] the validator uses) *)

Module Regex.
Import PyStr.

Inductive regex : Type :=
| Eps                                   (* the empty pattern *)
| Chr (c : ascii)                       (* a literal character *)
| Dot                                   (* [.]: any character but line feed *)
| Class (ranges : list (ascii * ascii)) (* [[a-z0-9]] *)
| Caret                                 (* [^]: start of the text *)
| Dollar                                (* [$]: end, or before a final line feed *)
| Cat (r1 r2 : regex)
| Star (greedy : bool) (r : regex).     (* [r*] and [r*?] *)

(** [r+] *)
Definition Plus (r : regex) : regex := Cat r (Star true r).

(** [r{n,}] *)
Fixpoint AtLeast (n : nat) (r : regex) : regex :=
  match n with
  | 0 => Star true r
  | S n' => Cat r (AtLeast n' r)
  end.

(** A literal text. *)
Fixpoint Lit (w : string) : regex :=
  match w with
  | "" => Eps
  | String c w' => Cat (Chr c) (Lit w')
  end.

Definition in_range (c : ascii) (lo_hi : ascii * ascii) : bool :=
  ((nat_of_ascii (fst lo_hi) <=? nat_of_ascii c)
   && (nat_of_ascii c <=? nat_of_ascii (snd lo_hi)))%nat.

Definition in_class (ranges : list (ascii * ascii)) (c : ascii) : bool :=
  existsb (in_range c) ranges.

Definition one_char (p : ascii -> bool) (s : string) : list string :=
  match s with
  | String c s' => if p c then [s'] else []
  | "" => []
  end.

(** Repetition: the texts left after zero or more rounds of [step].  A
    round that consumes nothing leads nowhere new and is dropped, so
    [length s] rounds are enough.  Only the first round can still be at
    the start of the text. *)
Fixpoint iterate (step : bool -> string -> list string) (fuel : nat)
         (start : bool) (s : string) : list string :=
  s :: match fuel with
       | 0 => []
       | S fuel' =>
           flat_map (fun s' => if (length s' <? length s)%nat
                               then iterate step fuel' false s' else [])
                    (step start s)
       end.

(** [rests r start s]: every text that can remain after [r] has matched
    a prefix of [s]; [start] tells whether [s] is the whole text.  A
    backtracking matcher finds a match exactly when one exists, and
    greedy and lazy repetition differ only in which match is found first,
    so both have the same set of remainders. *)
Fixpoint rests (r : regex) (start : bool) (s : string) : list string :=
  match r with
  | Eps => [s]
  | Chr c => one_char (Ascii.eqb c) s
  | Dot => one_char (fun c' => negb (Ascii.eqb c' LF)) s
  | Class ranges => one_char (in_class ranges) s
  | Caret => if start then [s] else []
  | Dollar => if String.eqb s "" || String.eqb s nl then [s] else []
  | Cat r1 r2 =>
      flat_map (fun s1 => rests r2 (start && (length s1 =? length s)%nat) s1)
               (rests r1 start s)
  | Star _ r1 => iterate (rests r1) (length s) start s
  end.

Definition nonempty {A : Type} (l : list A) : bool :=
  match l with [] => false | _ :: _ => true end.

(** [bool(pattern.match(s))]: a match that begins at offset 0. *)
Definition re_match (r : regex) (s : string) : bool :=
  nonempty (rests r true s).

Fixpoint search_from (r : regex) (start : bool) (s : string) : bool :=
  nonempty (rests r start s)
  || match s with
     | "" => false
     | String _ s' => search_from r false s'
     end.

(** [bool(pattern.search(s))]: a match that begins at any offset. *)
Definition re_search (r : regex) (s : string) : bool :=
  search_from r true s.

End Regex.

(** ** Python values, exceptions and the state of a run *)

Set Warnings "-register-all".

(** The values [yaml.safe_load] can hand to the validator.  A mapping keeps
    its entries in insertion order, as a Python [dict] does, and has string
    keys (the spec's data model).  Floats, dates and binary values are left
    out. *)
Inductive pyvalue : Type :=
| PyNone
| PyBool (b : bool)
| PyInt (z : Z)
| PyStr (s : string)
| PyList (items : list pyvalue)
| PyDict (entries : list (string * pyvalue)).

(** The exceptions that can leave a run.  The last two come from the
    decoder: a date out of range is a [ValueError], a nesting too deep a
    [RecursionError]; neither is a [yaml.YAMLError]. *)
Inductive exn : Type :=
| TypeError
| AttributeError
| OSError
| UnicodeDecodeError
| ValueError
| RecursionError.

(** What [yaml.safe_load] does on a text: the decoded value, a
    [yaml.YAMLError] whose [str()] is [detail], or an exception of another
    class. *)
Inductive yaml_result : Type :=
| YamlOk (v : pyvalue)
| YamlError (detail : string)
| YamlRaises (e : exn).

(** [self.errors] and [self.warnings], oldest message first. *)
Record run_state : Type := mkState {
  errors : list string;
  warnings : list string
}.

Definition empty_state : run_state := mkState [] [].

(** The state [st] followed by the messages of [d]. *)
Definition extend (st d : run_state) : run_state :=
  mkState (errors st ++ errors d)%list (warnings st ++ warnings d)%list.

Inductive outcome (A : Type) : Type :=
| Returned (a : A) (st : run_state)
| Raised (e : exn).
Arguments Returned {A} a st.
Arguments Raised {A} e.

(** A method of the validator: state in, value and state out, or an
    exception. *)
Definition M (A : Type) : Type := run_state -> outcome A.

Definition ret {A : Type} (a : A) : M A := fun st => Returned a st.

Definition bind {A B : Type} (c : M A) (k : A -> M B) : M B :=
  fun st => match c st with
            | Returned a st' => k a st'
            | Raised e => Raised e
            end.

Definition raise {A : Type} (e : exn) : M A := fun _ => Raised e.

(** [self.errors.append(msg)] *)
Definition add_error (msg : string) : M unit :=
  fun st => Returned tt (mkState (errors st ++ [msg])%list (warnings st)).

(** [self.warnings.append(msg)] *)
Definition add_warning (msg : string) : M unit :=
  fun st => Returned tt (mkState (errors st) (warnings st ++ [msg])%list).

(** [if b: c] *)
Definition when (b : bool) (c : M unit) : M unit :=
  if b then c else ret tt.

(** [for x in xs: body(x)] *)
Fixpoint for_each {A : Type} (xs : list A) (body : A -> M unit) : M unit :=
  match xs with
  | [] => ret tt
  | x :: xs' => bind (body x) (fun _ => for_each xs' body)
  end.

Declare Scope run_scope.
Delimit Scope run_scope with run.
Notation "x <- c ;; k" := (bind c (fun x => k))
  (at level 61, c at next level, right associativity) : run_scope.
Notation "c ;; k" := (bind c (fun _ => k))
  (at level 61, right associativity) : run_scope.

Module Py.

(** [bool(v)] *)
Definition truthy (v : pyvalue) : bool :=
  match v with
  | PyNone => false
  | PyBool b => b
  | PyInt z => negb (Z.eqb z 0)
  | PyStr s => negb (String.eqb s "")
  | PyList items => match items with [] => false | _ => true end
  | PyDict entries => match entries with [] => false | _ => true end
  end.

(** [d.get(key)] on the entries of a mapping. *)
Fixpoint lookup (key : string) (entries : list (string * pyvalue))
  : pyvalue :=
  match entries with
  | [] => PyNone
  | (k, v) :: rest => if String.eqb k key then v else lookup key rest
  end.

(** [v.get(key)]: only a mapping has the method. *)
Definition get (v : pyvalue) (key : string) : M pyvalue :=
  match v with
  | PyDict entries => ret (lookup key entries)
  | _ => raise AttributeError
  end.

(** [iter(v)]: a mapping yields its keys, a string its characters, a list
    its items; nothing else can be iterated. *)
Definition iter (v : pyvalue) : M (list pyvalue) :=
  match v with
  | PyDict entries => ret (map (fun kv => PyStr (fst kv)) entries)
  | PyStr s =>
      ret (map (fun c => PyStr (String c "")) (list_ascii_of_string s))
  | PyList items => ret items
  | PyNone | PyBool _ | PyInt _ => raise TypeError
  end.

(** [str(v)] for a value that can be hashed; lists and mappings cannot,
    and looking one up in a set raises [TypeError]. *)
Definition hashable_text (v : pyvalue) : M string :=
  match v with
  | PyNone => ret "None"
  | PyBool true => ret "True"
  | PyBool false => ret "False"
  | PyInt z => ret (PyStr.of_Z z)
  | PyStr s => ret s
  | PyList _ | PyDict _ => raise TypeError
  end.

(** [v in keys] for a set [keys] of strings and a hashable [v]. *)
Definition in_set (v : pyvalue) (keys : list string) : bool :=
  match v with
  | PyStr s => existsb (String.eqb s) keys
  | _ => false
  end.

(** [isinstance(v, bool)] *)
Definition is_bool (v : pyvalue) : bool :=
  match v with PyBool _ => true | _ => false end.

(** [v is None] *)
Definition is_none (v : pyvalue) : bool :=
  match v with PyNone => true | _ => false end.

End Py.

(** ** The file system as one run sees it *)

(** [skill_md.read_text(encoding='utf-8')]: the decoded text, or the
    exception of a failed read. *)
Inductive read_result : Type :=
| ReadOk (text : string)
| ReadFails (e : exn).

(** The skill path: absent, present but not a directory, or a directory
    with or without a [SKILL.md] in it.  These are the states in which the
    system answers the questions of [exists] and [is_dir]; a path it
    cannot look up at all (a name longer than it allows) is none of them. *)
Inductive fs_state : Type :=
| NoSuchPath
| NotADirectory
| SkillDir (skill_md : option read_result).

(** [self.skill_path]: its text, its base name ([.name]) and what is on
    disk there. *)
Record skill_env : Type := mkEnv {
  path_text : string;
  folder_name : string;
  fs : fs_state
}.

(** ** The validator *)

Module SkillValidator.
Import PyStr Regex.
Local Open Scope run_scope.

(** Validation constants *)
Definition MAX_LINES : nat := 500.
Definition MAX_NAME_LENGTH : nat := 64.
Definition MAX_DESCRIPTION_LENGTH : nat := 1024.

Definition lower_or_digit : regex := Class [("a", "z"); ("0", "9")]%char.

(** [^[a-z0-9]+(-[a-z0-9]+)*$] *)
Definition NAME_PATTERN : regex :=
  Cat Caret
      (Cat (Plus lower_or_digit)
           (Cat (Star true (Cat (Chr "-") (Plus lower_or_digit)))
                Dollar)).

Definition VALID_FRONTMATTER_KEYS : list string :=
  [ "name"; "description"; "allowed-tools"; "disable-model-invocation";
    "user-invocable"; "context"; "agent"; "hooks"; "model";
    "argument-hint"; "license"; "metadata"; "compatibility" ].

(** [\[.*?\]\((?:\.\.\/){2,}.*?\)] *)
Definition ref_pattern : regex :=
  Cat (Chr "[")
      (Cat (Star false Dot)
           (Cat (Chr "]")
                (Cat (Chr "(")
                     (Cat (AtLeast 2 (Lit "../"))
                          (Cat (Star false Dot) (Chr ")")))))).

(** [__init__]: both accumulators start empty. *)
Definition init : run_state := empty_state.

Section Run.

(** [yaml.safe_load] *)
Variable safe_load : string -> yaml_result.

(** [self.skill_path] and the file system under it. *)
Variable env : skill_env.

Definition path_exists : bool :=
  match fs env with NoSuchPath => false | _ => true end.

Definition path_is_dir : bool :=
  match fs env with SkillDir _ => true | _ => false end.

(** [self.skill_path / "SKILL.md"], when it exists. *)
Definition skill_md : option read_result :=
  match fs env with SkillDir md => md | _ => None end.

Definition skill_md_exists : bool :=
  match skill_md with Some _ => true | None => false end.

Definition _validate_folder_structure : M unit :=
  if negb path_exists then
    add_error ("Skill folder does not exist: " ++ path_text env)
  else if negb path_is_dir then
    add_error ("Path is not a directory: " ++ path_text env)
  else if negb skill_md_exists then
    add_error ("SKILL.md not found in " ++ path_text env)
  else
    when (negb (re_match NAME_PATTERN (folder_name env)))
         (add_error ("Folder name '" ++ folder_name env ++ "' invalid. "
                     ++ "Use lowercase letters, numbers, and hyphens only.")).

Definition _parse_frontmatter (content : string) : M pyvalue :=
  if negb (startswith "---" content) then ret PyNone
  else
    let parts := split "---" (Some 2) content in
    if (List.length parts <? 3)%nat then ret PyNone
    else
      match safe_load (nth 1 parts "") with
      | YamlOk v => ret v
      | YamlError detail =>
          add_error ("YAML parsing error: " ++ detail) ;;
          ret PyNone
      | YamlRaises e => raise e
      end.

(** The body of [for key in frontmatter].  Hashing a list or a mapping
    for the set lookup raises [TypeError]. *)
Definition check_key (key : pyvalue) : M unit :=
  text <- Py.hashable_text key ;;
  when (negb (Py.in_set key VALID_FRONTMATTER_KEYS))
       (add_warning ("Unknown frontmatter key: '" ++ text ++ "'")).

(** The checks of a truthy [name].  On a number or a boolean [len()]
    raises [TypeError]; on a list or a mapping [len()] succeeds and
    [NAME_PATTERN.match] raises [TypeError] right after. *)
Definition check_name (name : pyvalue) : M unit :=
  match name with
  | PyStr name =>
      when (MAX_NAME_LENGTH <? length name)%nat
           (add_error ("Name '" ++ name ++ "' exceeds max length ("
                       ++ of_nat MAX_NAME_LENGTH ++ " chars)")) ;;
      when (negb (re_match NAME_PATTERN name))
           (add_error ("Name '" ++ name
                       ++ "' invalid. Use lowercase, numbers, hyphens only.")) ;;
      when (negb (String.eqb name (folder_name env)))
           (add_warning ("Name '" ++ name ++ "' doesn't match folder '"
                         ++ folder_name env ++ "'"))
  | _ => raise TypeError
  end.

(** The checks of a truthy [description].  On a number or a boolean
    [len()] raises [TypeError]; a list or a mapping has a length and no
    [lower] method ([AttributeError]). *)
Definition check_description (description : pyvalue) : M unit :=
  match description with
  | PyStr description =>
      when (MAX_DESCRIPTION_LENGTH <? length description)%nat
           (add_error ("Description exceeds max length ("
                       ++ of_nat MAX_DESCRIPTION_LENGTH ++ " chars)")) ;;
      when (negb (contains "use when" (lower description)))
           (add_warning
              "Description should include 'Use when...' trigger conditions") ;;
      when (startswith_any ["i "; "i'"; "we "] (lower description))
           (add_warning
              "Description should be in third person (avoid 'I' or 'We')")
  | PyList _ | PyDict _ => raise AttributeError
  | _ => raise TypeError
  end.

Definition check_boolean_field (frontmatter : pyvalue) (field : string)
  : M unit :=
  value <- Py.get frontmatter field ;;
  when (negb (Py.is_none value) && negb (Py.is_bool value))
       (add_error ("'" ++ field ++ "' must be a boolean (true/false)")).

Definition _validate_frontmatter (frontmatter : pyvalue) : M unit :=
  if Py.is_none frontmatter then ret tt
  else
    keys <- Py.iter frontmatter ;;
    for_each keys check_key ;;
    name <- Py.get frontmatter "name" ;;
    (if Py.truthy name then check_name name
     else add_warning
            "No 'name' field in frontmatter (will use folder name)") ;;
    description <- Py.get frontmatter "description" ;;
    (if Py.truthy description then check_description description
     else add_error "Missing required 'description' field") ;;
    for_each ["disable-model-invocation"; "user-invocable"]
             (check_boolean_field frontmatter).

Definition recommended_sections : list (string * string) :=
  [ ("When to Use", "when to use");
    ("Quick Start", "quick start");
    ("Examples", "example") ].

Definition _validate_content (content : string) : M unit :=
  let content_lower := lower content in
  for_each recommended_sections
           (fun section =>
              when (negb (contains (snd section) content_lower))
                   (add_warning ("Missing recommended section: '"
                                 ++ fst section ++ "'"))) ;;
  when (re_search ref_pattern content)
       (add_warning "Deeply nested file references detected (avoid ../..)").

(** The line-count check of [_validate_skill_md]. *)
Definition check_line_count (content : string) : M unit :=
  let lines := split nl None content in
  when (MAX_LINES <? List.length lines)%nat
       (add_warning ("SKILL.md has " ++ of_nat (List.length lines)
                     ++ " lines (recommended max: " ++ of_nat MAX_LINES
                     ++ ")")).

Definition _validate_skill_md : M unit :=
  match skill_md with
  | None => ret tt
  | Some (ReadFails e) => raise e
  | Some (ReadOk content) =>
      check_line_count content ;;
      frontmatter <- _parse_frontmatter content ;;
      if Py.is_none frontmatter then
        add_error "Invalid or missing YAML frontmatter"
      else
        _validate_frontmatter frontmatter ;;
        _validate_content content
  end.

Definition validate : M (bool * list string * list string) :=
  _validate_folder_structure ;;
  _validate_skill_md ;;
  fun st =>
    Returned ((List.length (errors st) =? 0)%nat, errors st, warnings st)
             st.

(** [SkillValidator(skill_path).validate()] *)
Definition run : outcome (bool * list string * list string) :=
  validate init.

End Run.

End SkillValidator.

(** ** A decoder for a fragment of YAML

    PyYAML is a library the validator imports.  [PyYAML.safe_load] follows
    it on the documents described below and is what the examples are
    evaluated with; the general theorems quantify over the decoder and do
    not depend on it.

    The fragment: every line is empty or made of spaces, or is an entry
    [key: value] written from the first column.  A key is a word (a
    lowercase letter followed by lowercase letters, digits and hyphens) that
    is not one of YAML's boolean or null words.  A value is [true] or
    [false], a decimal number without sign or leading zero, or words
    separated by single spaces.
    - no entry at all: the document is empty and decodes to [None];
    - entries only: a mapping, a repeated key keeping its first place and
      its last value;
    - a single value on a line of its own: that scalar;
    - a first character [@]: the scanner rejects it (the detail is the
      line of PyYAML's message that names the problem; the lines about
      the position are left out);
    - entries of which at least one has for value a date [dddd-dd-dd]
      with month [00] or above [12]: building the date raises
      [ValueError], which is no [yaml.YAMLError].
    Any other text is outside the fragment; the decoder answers with an
    error there and no lemma evaluates it on such a text. *)

Module PyYAML.
Import PyStr.

Definition is_space (c : ascii) : bool := Ascii.eqb c " ".
Definition is_lower (c : ascii) : bool :=
  ((97 <=? nat_of_ascii c) && (nat_of_ascii c <=? 122))%nat.
Definition is_digit (c : ascii) : bool :=
  ((48 <=? nat_of_ascii c) && (nat_of_ascii c <=? 57))%nat.
Definition is_word_char (c : ascii) : bool :=
  is_lower c || is_digit c || Ascii.eqb c "-".

(** Only spaces and line feeds. *)
Definition is_blank (s : string) : bool :=
  all_chars (fun c => is_space c || Ascii.eqb c LF) s.

Definition is_word (s : string) : bool :=
  match s with
  | "" => false
  | String c s' => is_lower c && all_chars is_word_char s'
  end.

(** The plain scalars YAML 1.1 reads as booleans or null among the
    lowercase words. *)
Definition special_words : list string :=
  ["yes"; "no"; "true"; "false"; "on"; "off"; "null"].

Definition is_special (s : string) : bool :=
  existsb (String.eqb s) special_words.

Definition is_decimal (s : string) : bool :=
  match s with
  | "" => false
  | String c s' =>
      if Ascii.eqb c "0" then String.eqb s' ""
      else is_digit c && all_chars is_digit s'
  end.

Fixpoint decimal_value (acc : Z) (s : string) : Z :=
  match s with
  | "" => acc
  | String c s' =>
      decimal_value (10 * acc + Z.of_nat (nat_of_ascii c - 48)) s'
  end.

(** The value of a plain scalar of the fragment. *)
Definition scalar (s : string) : option pyvalue :=
  if String.eqb s "true" then Some (PyBool true)
  else if String.eqb s "false" then Some (PyBool false)
  else if is_decimal s then Some (PyInt (decimal_value 0 s))
  else
    match split " " None s with
    | [w] => if is_word w && negb (is_special w) then Some (PyStr s)
             else None
    | ws => if forallb is_word ws then Some (PyStr s) else None
    end.

(** [d[key] = v] on the entries of a mapping. *)
Fixpoint dict_set (key : string) (v : pyvalue)
         (entries : list (string * pyvalue)) : list (string * pyvalue) :=
  match entries with
  | [] => [(key, v)]
  | (k, v') :: rest =>
      if String.eqb k key then (k, v) :: rest
      else (k, v') :: dict_set key v rest
  end.

(** One line [key: value]. *)
Definition entry (line : string) : option (string * pyvalue) :=
  match find_cut ": " line with
  | Some (k, v) =>
      if is_word k && negb (is_special k) then
        match scalar v with
        | Some x => Some (k, x)
        | None => None
        end
      else None
  | None => None
  end.

(** All the lines are entries: the mapping they build. *)
Fixpoint mapping (lines : list string) (acc : list (string * pyvalue))
  : option (list (string * pyvalue)) :=
  match lines with
  | [] => Some acc
  | line :: rest =>
      match entry line with
      | Some (k, v) => mapping rest (dict_set k v acc)
      | None => None
      end
  end.

(** A plain scalar written as a date, [dddd-dd-dd], whose month is no
    month. *)
Definition month_out_of_range (s : string) : bool :=
  match s with
  | String y1 (String y2 (String y3 (String y4 (String h1
      (String m1 (String m2 (String h2 (String d1 (String d2 ""))))))))) =>
      forallb is_digit [y1; y2; y3; y4; m1; m2; d1; d2]
      && Ascii.eqb h1 "-" && Ascii.eqb h2 "-"
      && (let month := decimal_value 0 (String m1 (String m2 "")) in
          (month =? 0)%Z || (12 <? month)%Z)
  | _ => false
  end.

(** One line [key: value] whose value is such a date. *)
Definition bad_date_entry (line : string) : bool :=
  match find_cut ": " line with
  | Some (k, v) => is_word k && negb (is_special k) && month_out_of_range v
  | None => false
  end.

Definition is_entry (line : string) : bool :=
  match entry line with Some _ => true | None => false end.

Definition safe_load (text : string) : yaml_result :=
  let lines :=
    filter (fun l => negb (all_chars is_space l)) (split nl None text) in
  match lines with
  | [] => YamlOk PyNone
  | first :: others =>
      if startswith "@" first then
        YamlError "found character '@' that cannot start any token"
      else
        match mapping lines [] with
        | Some entries => YamlOk (PyDict entries)
        | None =>
            if forallb (fun l => is_entry l || bad_date_entry l) lines
            then YamlRaises ValueError
            else
              match others, scalar first with
              | [], Some v => YamlOk v
              | _, _ => YamlError "text outside the decoded fragment"
              end
        end
  end.

End PyYAML.

(** ** What the theorems speak about *)

(** A method is append-only when running it from any state gives what it
    gives from the empty state, placed after the messages already there. *)
Definition appends {A : Type} (m : M A) : Prop :=
  forall st,
    m st = match m empty_state with
           | Returned a d => Returned a (extend st d)
           | Raised e => Raised e
           end.

(** The message of the folder-name check, when the base name does not
    match [NAME_PATTERN]. *)
Definition folder_name_errors (name : string) : list string :=
  if Regex.re_match SkillValidator.NAME_PATTERN name then []
  else ["Folder name '" ++ name ++ "' invalid. "
        ++ "Use lowercase letters, numbers, and hyphens only."].

(** The line-count advisory, in terms of the line feeds of the text. *)
Definition line_count_warnings (content : string) : list string :=
  let n := PyStr.count_char PyStr.LF content in
  if (500 <=? n)%nat then
    ["SKILL.md has " ++ PyStr.of_nat (n + 1)
     ++ " lines (recommended max: 500)"]
  else [].

(** A method that returns from every state, having only appended. *)
Definition grows (m : M unit) : Prop :=
  forall st, exists d, m st = Returned tt (extend st d).

(** A method that, when it returns, has appended no error equal to [msg]. *)
Definition avoids (msg : string) (m : M unit) : Prop :=
  forall st st',
    m st = Returned tt st' ->
    exists d, st' = extend st d /\ ~ In msg (errors d).

(** The error of the description check. *)
Definition missing_description : string :=
  "Missing required 'description' field".

(** No line feed in [s]. *)
Definition no_lf (s : string) : bool :=
  PyStr.all_chars (fun c => negb (Ascii.eqb c PyStr.LF)) s.

(** The texts of [ws] one after the other. *)
Definition join (ws : list string) : string := fold_right append "" ws.

(** The texts a pattern without anchors matches in full. *)
Fixpoint lang (r : Regex.regex) (w : string) : Prop :=
  match r with
  | Regex.Eps => w = ""
  | Regex.Chr c => w = String c ""
  | Regex.Dot => exists c, Ascii.eqb c PyStr.LF = false /\ w = String c ""
  | Regex.Class ranges =>
      exists c, Regex.in_class ranges c = true /\ w = String c ""
  | Regex.Caret | Regex.Dollar => False
  | Regex.Cat r1 r2 =>
      exists w1 w2, w = w1 ++ w2 /\ lang r1 w1 /\ lang r2 w2
  | Regex.Star _ r1 => exists ws, w = join ws /\ Forall (lang r1) ws
  end.

Fixpoint anchor_free (r : Regex.regex) : bool :=
  match r with
  | Regex.Caret | Regex.Dollar => false
  | Regex.Cat r1 r2 => anchor_free r1 && anchor_free r2
  | Regex.Star _ r1 => anchor_free r1
  | _ => true
  end.

(** [NAME_PATTERN] without its anchors. *)
Definition name_body : Regex.regex :=
  Regex.Cat (Regex.Plus SkillValidator.lower_or_digit)
            (Regex.Star true
               (Regex.Cat (Regex.Chr "-")
                          (Regex.Plus SkillValidator.lower_or_digit))).

(** A segment of a name: one or more lowercase letters or digits. *)
Definition is_segment (seg : string) : bool :=
  negb (String.eqb seg "")
  && PyStr.all_chars (Regex.in_class [("a", "z"); ("0", "9")]%char) seg.

(** The characters the message of the folder-name check allows:
    lowercase letters, digits and the hyphen. *)
Definition name_char (c : ascii) : bool :=
  Regex.in_class [("a", "z"); ("0", "9")]%char c || Ascii.eqb c "-".

(** The names that message describes: segments separated by single
    hyphens. *)
Definition hyphenated (s : string) : Prop :=
  exists seg segs,
    is_segment seg = true
    /\ Forall (fun x => is_segment x = true) segs
    /\ s = seg ++ join (map (append "-") segs).

(** The warnings about recommended sections, in the order of the checks. *)
Definition section_warnings (content : string) : list string :=
  let low := PyStr.lower content in
  ((if PyStr.contains "when to use" low then []
    else ["Missing recommended section: 'When to Use'"])
   ++ (if PyStr.contains "quick start" low then []
       else ["Missing recommended section: 'Quick Start'"])
   ++ (if PyStr.contains "example" low then []
       else ["Missing recommended section: 'Examples'"]))%list.

(** The warning about deep relative references. *)
Definition deep_reference_warning : string :=
  "Deeply nested file references detected (avoid ../..)".

(** [s * n] *)
Fixpoint repeat_string (s : string) (n : nat) : string :=
  match n with
  | 0 => ""
  | S n' => s ++ repeat_string s n'
  end.

(** A skill folder [skills/my-skill] whose [SKILL.md] holds [text]. *)
Definition my_skill (text : string) : skill_env :=
  mkEnv "skills/my-skill" "my-skill" (SkillDir (Some (ReadOk text))).

(** ** The report of the metadata checks *)

(** A method that returns from every state, having appended exactly [d]. *)
Definition emits (d : run_state) (m : M unit) : Prop :=
  forall st, m st = Returned tt (extend st d).

Definition is_str (v : pyvalue) : bool :=
  match v with PyStr _ => true | _ => false end.

(** A field the checks can work on: absent or falsy, or a string. *)
Definition falsy_or_str (v : pyvalue) : bool :=
  negb (Py.truthy v) || is_str v.

(** Metadata on which the field checks do not raise: [None], or a mapping
    whose [name] and [description] are each falsy or a string. *)
Definition well_typed (v : pyvalue) : bool :=
  match v with
  | PyNone => true
  | PyDict entries =>
      falsy_or_str (Py.lookup "name" entries)
      && falsy_or_str (Py.lookup "description" entries)
  | _ => false
  end.

Definition unknown_key (k : string) : bool :=
  negb (existsb (String.eqb k) SkillValidator.VALID_FRONTMATTER_KEYS).

Definition unknown_key_warning (k : string) : string :=
  "Unknown frontmatter key: '" ++ k ++ "'".

Definition key_warnings (entries : list (string * pyvalue)) : list string :=
  map unknown_key_warning (filter unknown_key (map fst entries)).

Definition name_too_long (n : string) : string :=
  "Name '" ++ n ++ "' exceeds max length (64 chars)".

Definition name_invalid (n : string) : string :=
  "Name '" ++ n ++ "' invalid. Use lowercase, numbers, hyphens only.".

Definition name_mismatch (n folder : string) : string :=
  "Name '" ++ n ++ "' doesn't match folder '" ++ folder ++ "'".

Definition no_name : string :=
  "No 'name' field in frontmatter (will use folder name)".

Definition description_too_long : string :=
  "Description exceeds max length (1024 chars)".

Definition use_when_missing : string :=
  "Description should include 'Use when...' trigger conditions".

Definition first_person : string :=
  "Description should be in third person (avoid 'I' or 'We')".

Definition not_boolean (field : string) : string :=
  "'" ++ field ++ "' must be a boolean (true/false)".

Definition name_errors (name : pyvalue) : list string :=
  match name with
  | PyStr n =>
      if String.eqb n "" then []
      else ((if (64 <? length n)%nat then [name_too_long n] else [])
            ++ (if Regex.re_match SkillValidator.NAME_PATTERN n then []
                else [name_invalid n]))%list
  | _ => []
  end.

Definition name_warnings (folder : string) (name : pyvalue) : list string :=
  match name with
  | PyStr n =>
      if String.eqb n "" then [no_name]
      else if String.eqb n folder then [] else [name_mismatch n folder]
  | _ => [no_name]
  end.

Definition description_errors (description : pyvalue) : list string :=
  match description with
  | PyStr d =>
      if String.eqb d "" then [missing_description]
      else if (1024 <? length d)%nat then [description_too_long] else []
  | _ => [missing_description]
  end.

Definition description_warnings (description : pyvalue) : list string :=
  match description with
  | PyStr d =>
      if String.eqb d "" then []
      else ((if PyStr.contains "use when" (PyStr.lower d) then []
             else [use_when_missing])
            ++ (if PyStr.startswith_any ["i "; "i'"; "we "] (PyStr.lower d)
                then [first_person] else []))%list
  | _ => []
  end.

Definition boolean_error (entries : list (string * pyvalue))
           (field : string) : list string :=
  let value := Py.lookup field entries in
  if negb (Py.is_none value) && negb (Py.is_bool value)
  then [not_boolean field] else [].

Definition boolean_errors (entries : list (string * pyvalue)) : list string :=
  (boolean_error entries "disable-model-invocation"
   ++ boolean_error entries "user-invocable")%list.

(** What the field checks append for a mapping: errors and warnings, each
    in the order of the checks. *)
Definition frontmatter_report (folder : string)
           (entries : list (string * pyvalue)) : run_state :=
  mkState
    (name_errors (Py.lookup "name" entries)
     ++ description_errors (Py.lookup "description" entries)
     ++ boolean_errors entries)%list
    (key_warnings entries
     ++ name_warnings folder (Py.lookup "name" entries)
     ++ description_warnings (Py.lookup "description" entries))%list.

(** The first character of a message. *)
Definition first_char (s : string) : option ascii :=
  match s with
  | "" => None
  | String c _ => Some c
  end.

(** The text [_parse_frontmatter] hands to the decoder: the second of the
    segments of a text that opens with the delimiter and has three of
    them; no text at all otherwise. *)
Definition metadata_block (text : string) : option string :=
  if negb (PyStr.startswith "---" text) then None
  else
    let parts := PyStr.split "---" (Some 2) text in
    if (List.length parts <? 3)%nat then None else Some (nth 1 parts "").

(** A mapping with findings of several kinds, and one without a name. *)
Definition sample_metadata : list (string * pyvalue) :=
  [("name", PyStr "Other"); ("colour", PyInt 3);
   ("description", PyStr "I build things");
   ("user-invocable", PyStr "yes")].

Definition nameless_metadata : list (string * pyvalue) :=
  [("description", PyStr "Builds things. Use when building.")].

(** ** The command line: [validate_skill], [validate_all_skills], [main] *)

Module Cli.
Import PyStr.

(** The characters of the report that lie outside Latin-1: the cross mark,
    the warning sign (with its variation selector), the check mark and the
    bullet. *)
Inductive glyph : Type := CrossMark | WarningSign | CheckMark | Bullet.

Inductive piece : Type :=
| Txt (s : string)
| Sym (g : glyph).

(** The text of one [print] call. *)
Definition line : Type := list piece.

(** What a function of the command line does: it returns a value, or an
    exception leaves it; either way after having printed [out]. *)
Inductive result (A : Type) : Type :=
| Done (a : A) (out : list line)
| Crashed (e : exn) (out : list line).
Arguments Done {A} a out.
Arguments Crashed {A} e out.

(** One entry of [skills_path.iterdir()]: the text of its path, its base
    name, and whether it is a directory. *)
Record dir_entry : Type := mkEntry {
  entry_path : string;
  entry_name : string;
  entry_is_dir : bool
}.

(** The skills directory: absent, present but not a directory, or a
    directory with its entries as the system lists them. *)
Inductive dir_state : Type :=
| NoDir
| NotDir
| Dir (entries : list dir_entry).

(** The counters of [validate_all_skills]. *)
Record tally : Type := mkTally {
  skill_count : nat;
  error_count : nat;
  all_valid : bool
}.

(** How [main] ends: [sys.exit(code)], or an exception nobody catches. *)
Inductive ending : Type :=
| Exit (code : nat) (out : list line)
| Uncaught (e : exn) (out : list line).

(** ['='*60] *)
Definition rule : string := repeat_string "=" 60.

(** The module's docstring, [__doc__]. *)
Definition usage : string :=
  nl ++ "Skill Validator for II-Skills Repository" ++ nl
  ++ nl
  ++ "Validates SKILL.md files for proper structure, frontmatter, and content."
  ++ nl ++ nl
  ++ "Usage:" ++ nl
  ++ "    python validate-skill.py <skill-path>" ++ nl
  ++ "    python validate-skill.py skills/my-skill/" ++ nl
  ++ "    python validate-skill.py --all  # Validate all skills" ++ nl.

Definition bullet (msg : string) : line :=
  [Txt "   "; Sym Bullet; Txt (" " ++ msg)].

(** [sorted(...)] of paths of one directory: by base name, in code point
    order.  The names of one directory are distinct. *)
Fixpoint insert_entry (e : dir_entry) (l : list dir_entry)
  : list dir_entry :=
  match l with
  | [] => [e]
  | x :: rest =>
      if String.leb (entry_name e) (entry_name x) then e :: l
      else x :: insert_entry e rest
  end.

Definition sorted (l : list dir_entry) : list dir_entry :=
  fold_right insert_entry [] l.

Section World.

(** [yaml.safe_load] *)
Variable safe_load : string -> yaml_result.

(** What [SkillValidator(skill_path)] sees for a path given as text. *)
Variable world : string -> skill_env.

(** What the file system holds at a directory path given as text. *)
Variable listing : string -> dir_state.

Definition validate_skill (skill_path : string) : result bool :=
  let header :=
    [[Txt (nl ++ rule)]; [Txt ("Validating: " ++ skill_path)]; [Txt rule]] in
  match SkillValidator.run safe_load (world skill_path) with
  | Raised e => Crashed e header
  | Returned (is_valid, errors, warnings) _ =>
      Done is_valid
        (header
         ++ (match errors with
             | [] => []
             | _ => [Txt nl; Sym CrossMark; Txt " ERRORS:"]
                    :: map bullet errors
             end)
         ++ (match warnings with
             | [] => []
             | _ => [Txt nl; Sym WarningSign; Txt "  WARNINGS:"]
                    :: map bullet warnings
             end)
         ++ [if is_valid
             then [Txt nl; Sym CheckMark; Txt " Skill is valid!"]
             else [Txt nl; Sym CrossMark;
                   Txt " Skill has errors that must be fixed."]])%list
  end.

(** The loop of [validate_all_skills] over the sorted entries. *)
Fixpoint visit (entries : list dir_entry) (t : tally) (out : list line)
  : result tally :=
  match entries with
  | [] => Done t out
  | skill_folder :: rest =>
      if entry_is_dir skill_folder
         && negb (startswith "." (entry_name skill_folder))
      then
        match validate_skill (entry_path skill_folder) with
        | Crashed e o => Crashed e (out ++ o)%list
        | Done true o =>
            visit rest
                  (mkTally (skill_count t + 1) (error_count t) (all_valid t))
                  (out ++ o)%list
        | Done false o =>
            visit rest
                  (mkTally (skill_count t + 1) (error_count t + 1) false)
                  (out ++ o)%list
        end
      else visit rest t out
  end.

Definition summary (t : tally) : list line :=
  [[Txt (nl ++ rule)];
   [Txt ("SUMMARY: " ++ of_nat (skill_count t - error_count t) ++ "/"
         ++ of_nat (skill_count t) ++ " skills valid")];
   [Txt rule]].

Definition validate_all_skills (skills_dir : string) : result bool :=
  match listing skills_dir with
  | NoDir =>
      Done false [[Txt ("Skills directory not found: " ++ skills_dir)]]
  | NotDir => Crashed OSError []
  | Dir entries =>
      match visit (sorted entries) (mkTally 0 0 true) [] with
      | Done t out => Done (all_valid t) (out ++ summary t)%list
      | Crashed e out => Crashed e out
      end
  end.

(** [sys.exit(0 if success else 1)] *)
Definition finish (r : result bool) : ending :=
  match r with
  | Done success out => Exit (if success then 0 else 1) out
  | Crashed e out => Uncaught e out
  end.

(** [main()], with [sys.argv] as argument. *)
Definition main (argv : list string) : ending :=
  match argv with
  | [] | [_] => Exit 1 [[Txt usage]]
  | _ :: arg :: _ =>
      if String.eqb arg "--all" then finish (validate_all_skills "skills")
      else if String.eqb arg "--help" || String.eqb arg "-h"
           then Exit 0 [[Txt usage]]
           else finish (validate_skill arg)
  end.

End World.

End Cli.

(** Whether the run of the skill at an entry returns a valid result. *)
Definition skill_valid (safe_load : string -> yaml_result)
           (world : string -> skill_env) (e : Cli.dir_entry) : bool :=
  match SkillValidator.run safe_load (world (Cli.entry_path e)) with
  | Returned (is_valid, _, _) _ => is_valid
  | Raised _ => false
  end.

(** Whether the run of the skill at an entry returns at all. *)
Definition skill_returns (safe_load : string -> yaml_result)
           (world : string -> skill_env) (e : Cli.dir_entry) : bool :=
  match SkillValidator.run safe_load (world (Cli.entry_path e)) with
  | Returned _ _ => true
  | Raised _ => false
  end.

(** The entries [validate_all_skills] validates: directories whose name
    does not start with a dot. *)
Definition visible (e : Cli.dir_entry) : bool :=
  Cli.entry_is_dir e && negb (PyStr.startswith "." (Cli.entry_name e)).

(** The line of the summary that gives the count. *)
Definition is_summary (l : Cli.line) : bool :=
  match l with
  | [Cli.Txt s] => PyStr.startswith "SUMMARY: " s
  | _ => false
  end.

(** ** Facts about the string primitives *)

Section StringFacts.
Import PyStr.

Lemma append_assoc (a b c : string) : (a ++ b) ++ c = a ++ (b ++ c).
Proof. induction a as [|x a IH]; simpl; [reflexivity | now rewrite IH]. Qed.

Lemma append_empty_r (a : string) : a ++ "" = a.
Proof. induction a as [|x a IH]; simpl; [reflexivity | now rewrite IH]. Qed.

Lemma length_append (a b : string) :
  length (a ++ b) = length a + length b.
Proof. induction a as [|x a IH]; simpl; [reflexivity | now rewrite IH]. Qed.

Lemma prefix_append (p s : string) : prefix p (p ++ s) = true.
Proof.
  induction p as [|x p IH]; simpl.
  - now destruct s.
  - destruct (ascii_dec x x) as [_|n]; [exact IH | now elim n].
Qed.

Lemma prefix_cons (a b : ascii) (p s : string) :
  prefix (String a p) (String b s) =
  if Ascii.eqb a b then prefix p s else false.
Proof.
  change (prefix (String a p) (String b s))
    with (match ascii_dec a b with
          | left _ => prefix p s
          | right _ => false
          end).
  destruct (ascii_dec a b), (Ascii.eqb_spec a b);
    try contradiction; reflexivity.
Qed.

Lemma prefix_empty (s : string) : prefix "" s = true.
Proof. now destruct s. Qed.

Lemma prefix_longer (p u t : string) :
  length p <= length u -> prefix p (u ++ t) = prefix p u.
Proof.
  revert u; induction p as [|x p IH]; intros u L.
  - now destruct u, t.
  - destruct u as [|y u]; simpl in L; [lia|].
    simpl. destruct (ascii_dec x y); [apply IH; lia | reflexivity].
Qed.

Lemma prefix_split (p s : string) :
  prefix p s = true -> s = p ++ drop (length p) s.
Proof.
  revert s; induction p as [|x p IH]; intros s H; simpl.
  - reflexivity.
  - destruct s as [|y s]; simpl in H; [discriminate|].
    destruct (ascii_dec x y) as [->|_]; [|discriminate].
    simpl. f_equal. now apply IH.
Qed.

Lemma drop_append (p s : string) : drop (length p) (p ++ s) = s.
Proof. induction p as [|x p IH]; simpl; [reflexivity | exact IH]. Qed.

Lemma find_cut_eq (sep s : string) :
  find_cut sep s =
  if prefix sep s then Some ("", drop (length sep) s)
  else match s with
       | "" => None
       | String c s' =>
           match find_cut sep s' with
           | Some (a, b) => Some (String c a, b)
           | None => None
           end
       end.
Proof. destruct s; reflexivity. Qed.

(** A successful cut splits the text around one occurrence of [sep]. *)
Lemma find_cut_sound (sep s a b : string) :
  find_cut sep s = Some (a, b) -> s = a ++ sep ++ b.
Proof.
  revert a b; induction s as [|c s IH]; intros a b H;
    rewrite find_cut_eq in H.
  - destruct (prefix sep "") eqn:P; [|discriminate].
    inversion H; subst. now apply prefix_split.
  - destruct (prefix sep (String c s)) eqn:P.
    + inversion H; subst. now apply prefix_split.
    + destruct (find_cut sep s) as [[a' b']|] eqn:F; [|discriminate].
      inversion H; subst. simpl. f_equal. now apply IH.
Qed.

(** It fails only when [sep] occurs nowhere. *)
Lemma find_cut_complete (sep s a b : string) :
  s = a ++ sep ++ b -> find_cut sep s <> None.
Proof.
  revert s; induction a as [|x a IH]; intros s ->; rewrite find_cut_eq.
  - cbn [append]. rewrite prefix_append. discriminate.
  - destruct (prefix sep (String x a ++ sep ++ b)); [discriminate|].
    specialize (IH _ eq_refl). cbn [append].
    destruct (find_cut sep (a ++ sep ++ b)) as [[? ?]|];
      [discriminate | now elim IH].
Qed.

(** [sub in s] holds exactly when [s] can be written around [sub]. *)
Lemma contains_iff (sub s : string) :
  contains sub s = true <-> exists a b, s = a ++ sub ++ b.
Proof.
  unfold contains; split.
  - destruct (find_cut sub s) as [[a b]|] eqn:F; [|discriminate].
    intros _. exists a, b. now apply find_cut_sound.
  - intros (a & b & E). apply find_cut_complete in E.
    destruct (find_cut sub s) as [[? ?]|]; [reflexivity | now elim E].
Qed.

Lemma contains_tail (sub s : string) (c : ascii) :
  contains sub (String c s) = false -> contains sub s = false.
Proof.
  intros H. destruct (contains sub s) eqn:E; [|reflexivity].
  apply contains_iff in E. destruct E as (a & b & ->).
  assert (T : contains sub (String c (a ++ sub ++ b)) = true)
    by (apply contains_iff; now exists (String c a), b).
  congruence.
Qed.

Lemma contains_prefix (sub s : string) :
  contains sub s = false -> prefix sub s = false.
Proof.
  intros H. destruct (prefix sub s) eqn:P; [|reflexivity].
  assert (T : contains sub s = true).
  { apply contains_iff. exists "", (drop (length sub) s).
    now apply prefix_split. }
  congruence.
Qed.

(** The text cut at the leftmost delimiter: when ["---"] does not occur
    in [block] followed by two hyphens, the first ["---"] of
    [block ++ "---" ++ body] is the one written after [block]. *)
Lemma find_cut_leftmost (body block : string) :
  contains "---" (block ++ "--") = false ->
  find_cut "---" (block ++ "---" ++ body) = Some (block, body).
Proof.
  induction block as [|c block IH]; intros H.
  - cbn [append]. change (String "-" (String "-" (String "-" body)))
      with ("---" ++ body).
    now rewrite find_cut_eq, prefix_append, drop_append.
  - rewrite find_cut_eq.
    assert (P : prefix "---" (String c block ++ "---" ++ body) = false).
    { apply contains_prefix in H.
      change (String c block ++ "---" ++ body)
        with (String c block ++ "--" ++ "-" ++ body).
      rewrite <- append_assoc, prefix_longer; [exact H|].
      rewrite length_append. simpl. lia. }
    rewrite P.
    change (String c block ++ "---" ++ body)
      with (String c (block ++ "---" ++ body)).
    cbv iota. rewrite IH; [reflexivity|].
    now apply contains_tail with c.
Qed.

End StringFacts.

(** ** Lines of a text *)

Section LineFacts.
Import PyStr.

Lemma find_cut_nl_cons (c : ascii) (s : string) :
  find_cut nl (String c s) =
  if Ascii.eqb LF c then Some ("", s)
  else match find_cut nl s with
       | Some (a, b) => Some (String c a, b)
       | None => None
       end.
Proof.
  rewrite find_cut_eq. unfold nl.
  rewrite prefix_cons, prefix_empty.
  now destruct (Ascii.eqb LF c).
Qed.

(** Each cut at a line feed removes exactly one of them. *)
Lemma find_cut_nl_count (s : string) :
  match find_cut nl s with
  | Some (_, b) => count_char LF s = S (count_char LF b)
  | None => count_char LF s = 0
  end.
Proof.
  induction s as [|c s IH]; [reflexivity|].
  rewrite find_cut_nl_cons.
  change (count_char LF (String c s))
    with ((if Ascii.eqb LF c then 1 else 0) + count_char LF s).
  destruct (Ascii.eqb LF c); [reflexivity|].
  now destruct (find_cut nl s) as [[a b]|].
Qed.

Lemma split_upto_nl_length (n : nat) (s : string) :
  List.length (split_upto n nl s) = Nat.min n (count_char LF s) + 1.
Proof.
  revert s; induction n as [|n IH]; intros s; [reflexivity|].
  simpl split_upto. pose proof (find_cut_nl_count s) as C.
  destruct (find_cut nl s) as [[a b]|].
  - simpl List.length. rewrite IH, C. simpl. lia.
  - rewrite C. reflexivity.
Qed.

Lemma count_char_le_length (c : ascii) (s : string) :
  count_char c s <= length s.
Proof.
  induction s as [|x s IH]; [simpl; lia|].
  change (count_char c (String x s))
    with ((if Ascii.eqb c x then 1 else 0) + count_char c s).
  simpl length. destruct (Ascii.eqb c x); lia.
Qed.

(** [len(content.split('\n'))] is the number of line feeds plus one. *)
Lemma split_lines_length (s : string) :
  List.length (split nl None s) = count_char LF s + 1.
Proof.
  unfold split. rewrite split_upto_nl_length.
  pose proof (count_char_le_length LF s). lia.
Qed.

End LineFacts.

(** ** The accumulators only grow *)

Section Frame.

Lemma extend_empty_r (st : run_state) : extend st empty_state = st.
Proof.
  destruct st as [e w]. unfold extend; simpl.
  now rewrite !app_nil_r.
Qed.

Lemma extend_empty_l (st : run_state) : extend empty_state st = st.
Proof. now destruct st. Qed.

Lemma extend_assoc (a b c : run_state) :
  extend (extend a b) c = extend a (extend b c).
Proof. unfold extend; simpl. now rewrite !app_assoc. Qed.

Lemma appends_ret {A : Type} (a : A) : appends (ret a).
Proof. intros st. unfold ret. now rewrite extend_empty_r. Qed.

Lemma appends_raise {A : Type} (e : exn) : appends (@raise A e).
Proof. intros st. reflexivity. Qed.

Lemma appends_add_error (msg : string) : appends (add_error msg).
Proof. intros [e w]. unfold add_error, extend; simpl.
       now rewrite app_nil_r. Qed.

Lemma appends_add_warning (msg : string) : appends (add_warning msg).
Proof. intros [e w]. unfold add_warning, extend; simpl.
       now rewrite app_nil_r. Qed.

Lemma appends_bind {A B : Type} (c : M A) (k : A -> M B) :
  appends c -> (forall a, appends (k a)) -> appends (bind c k).
Proof.
  intros Hc Hk st. unfold bind. rewrite (Hc st).
  destruct (c empty_state) as [a d|e]; [|reflexivity].
  rewrite (Hk a (extend st d)), (Hk a d).
  destruct (k a empty_state) as [b x|e]; [|reflexivity].
  now rewrite extend_assoc.
Qed.

Lemma appends_when (b : bool) (c : M unit) :
  appends c -> appends (when b c).
Proof. intros H. destruct b; simpl; [exact H | apply appends_ret]. Qed.

Lemma appends_for_each {A : Type} (xs : list A) (body : A -> M unit) :
  (forall x, appends (body x)) -> appends (for_each xs body).
Proof.
  intros H. induction xs as [|x xs IH]; simpl.
  - apply appends_ret.
  - apply appends_bind; [apply H | intros _; exact IH].
Qed.

Lemma appends_if {A : Type} (b : bool) (c1 c2 : M A) :
  appends c1 -> appends c2 -> appends (if b then c1 else c2).
Proof. now destruct b. Qed.

End Frame.

Ltac frame_step :=
  lazymatch goal with
  | |- appends (bind _ _) => apply appends_bind; [|intros ?]
  | |- appends (when _ _) => apply appends_when
  | |- appends (for_each _ _) => apply appends_for_each; intros ?
  | |- appends (if _ then _ else _) => apply appends_if
  | |- appends (ret _) => apply appends_ret
  | |- appends (raise _) => apply appends_raise
  | |- appends (add_error _) => apply appends_add_error
  | |- appends (add_warning _) => apply appends_add_warning
  | |- appends (match ?v with _ => _ end) => destruct v
  end.

Ltac frame := repeat frame_step.

Section ValidatorFrame.
Import SkillValidator.

Variable safe_load : string -> yaml_result.
Variable env : skill_env.

Lemma appends_folder_structure : appends (_validate_folder_structure env).
Proof. unfold _validate_folder_structure. frame. Qed.

Lemma appends_parse_frontmatter (content : string) :
  appends (_parse_frontmatter safe_load content).
Proof.
  unfold _parse_frontmatter. frame.
Qed.

Lemma appends_validate_frontmatter (fm : pyvalue) :
  appends (_validate_frontmatter env fm).
Proof.
  unfold _validate_frontmatter, check_key, check_boolean_field,
    check_name, check_description, Py.iter, Py.get, Py.hashable_text.
  frame.
Qed.

Lemma appends_validate_content (content : string) :
  appends (_validate_content content).
Proof. unfold _validate_content. frame. Qed.

Lemma appends_check_line_count (content : string) :
  appends (check_line_count content).
Proof. unfold check_line_count. frame. Qed.

Lemma appends_validate_skill_md :
  appends (_validate_skill_md safe_load env).
Proof.
  unfold _validate_skill_md.
  destruct (skill_md env) as [[content|e]|]; frame.
  - apply appends_check_line_count.
  - apply appends_parse_frontmatter.
  - apply appends_validate_frontmatter.
  - apply appends_validate_content.
Qed.

End ValidatorFrame.

(** ** The line-count advisory *)

Section LineCount.
Import PyStr SkillValidator.

Lemma check_line_count_run (content : string) (st : run_state) :
  check_line_count content st =
  Returned tt (mkState (errors st)
                       (warnings st ++ line_count_warnings content)%list).
Proof.
  unfold check_line_count, line_count_warnings, MAX_LINES.
  rewrite split_lines_length.
  replace (500 <? count_char LF content + 1)%nat
    with (500 <=? count_char LF content)%nat
    by (destruct (Nat.leb_spec 500 (count_char LF content)),
          (Nat.ltb_spec 500 (count_char LF content + 1)); lia || reflexivity).
  destruct (500 <=? count_char LF content)%nat; simpl.
  - reflexivity.
  - unfold ret. destruct st; simpl. now rewrite app_nil_r.
Qed.

End LineCount.


(** ** The run as a whole *)

Section RunFacts.
Import PyStr SkillValidator.

Variable safe_load : string -> yaml_result.
Variable env : skill_env.

(** [validate] runs the two stages in order and reads the accumulators. *)
Lemma validate_stages (st : run_state) :
  validate safe_load env st =
  match _validate_folder_structure env st with
  | Returned _ st1 =>
      match _validate_skill_md safe_load env st1 with
      | Returned _ st2 =>
          Returned ((List.length (errors st2) =? 0)%nat,
                    errors st2, warnings st2) st2
      | Raised e => Raised e
      end
  | Raised e => Raised e
  end.
Proof.
  unfold validate, bind.
  destruct (_validate_folder_structure env st) as [[] st1|e]; [|reflexivity].
  now destruct (_validate_skill_md safe_load env st1) as [[] st2|e].
Qed.

(** The structure checks never raise and never warn. *)
Lemma folder_structure_returns (st : run_state) :
  exists errs,
    _validate_folder_structure env st
    = Returned tt (mkState (errors st ++ errs)%list (warnings st)).
Proof.
  unfold _validate_folder_structure, path_exists, path_is_dir,
    skill_md_exists, skill_md, when.
  destruct (fs env) as [| |[doc|]]; simpl;
    try (eexists; reflexivity).
  destruct (Regex.re_match NAME_PATTERN (folder_name env)); simpl.
  - exists []. unfold ret. rewrite app_nil_r. now destruct st.
  - eexists; reflexivity.
Qed.

(** With [SKILL.md] in place the only structure check left is the one on
    the folder name. *)
Lemma folder_structure_with_skill_md (doc : read_result) (st : run_state) :
  fs env = SkillDir (Some doc) ->
  _validate_folder_structure env st
  = Returned tt (mkState (errors st ++ folder_name_errors (folder_name env))%list
                         (warnings st)).
Proof.
  intros F.
  unfold _validate_folder_structure, path_exists, path_is_dir,
    skill_md_exists, skill_md, when, folder_name_errors.
  rewrite F; simpl.
  destruct (Regex.re_match NAME_PATTERN (folder_name env)); simpl.
  - unfold ret. rewrite app_nil_r. now destruct st.
  - reflexivity.
Qed.

(** A text that does not open with the delimiter: the parser gives
    [None] and records nothing. *)
Lemma parse_no_delimiter (text : string) (st : run_state) :
  startswith "---" text = false ->
  _parse_frontmatter safe_load text st = Returned PyNone st.
Proof. intros H. unfold _parse_frontmatter. now rewrite H. Qed.

(** A text with fewer than three segments: the same. *)
Lemma parse_too_few_segments (text : string) (st : run_state) :
  (List.length (split "---" (Some 2) text) < 3)%nat ->
  _parse_frontmatter safe_load text st = Returned PyNone st.
Proof.
  intros H. unfold _parse_frontmatter.
  destruct (negb (startswith "---" text)); [reflexivity|].
  apply Nat.ltb_lt in H. now rewrite H.
Qed.

(** A text that opens with the delimiter and has a second one: the
    segments are the empty prefix, the block and the body. *)
Lemma split_frontmatter (block body : string) :
  contains "---" (block ++ "--") = false ->
  split "---" (Some 2) ("---" ++ block ++ "---" ++ body)
  = [""; block; body].
Proof.
  intros H. unfold split.
  change (split_upto 2 "---" ("---" ++ block ++ "---" ++ body))
    with (match find_cut "---" ("---" ++ block ++ "---" ++ body) with
          | None => ["---" ++ block ++ "---" ++ body]
          | Some (a, b) =>
              a :: match find_cut "---" b with
                   | None => [b]
                   | Some (a', b') => [a'; b']
                   end
          end).
  rewrite find_cut_eq, prefix_append, drop_append.
  now rewrite (find_cut_leftmost body block H).
Qed.

(** The parser on such a text is the decoder on the block. *)
Lemma parse_delimited (block body : string) (st : run_state) :
  contains "---" (block ++ "--") = false ->
  _parse_frontmatter safe_load ("---" ++ block ++ "---" ++ body) st
  = match safe_load block with
    | YamlOk v => Returned v st
    | YamlError detail =>
        Returned PyNone
                 (extend st (mkState ["YAML parsing error: " ++ detail] []))
    | YamlRaises e => Raised e
    end.
Proof.
  intros H. unfold _parse_frontmatter.
  unfold startswith. rewrite prefix_append. simpl negb. cbv iota.
  rewrite (split_frontmatter block body H). simpl.
  destruct (safe_load block); [reflexivity| |reflexivity].
  unfold bind, add_error, ret, extend; simpl. now rewrite app_nil_r.
Qed.

End RunFacts.

(** C8. The validity flag a run returns is true exactly when the error
    list it returns is empty; the flag is computed from the error list
    alone, so the warnings have no part in it. *)
Theorem valid_iff_no_errors
        (safe_load : string -> yaml_result) (env : skill_env)
        (st0 st : run_state) (is_valid : bool) (errs warns : list string) :
  SkillValidator.validate safe_load env st0
  = Returned (is_valid, errs, warns) st ->
  (is_valid = true <-> errs = [])
  /\ is_valid = (List.length errs =? 0)%nat
  /\ errs = errors st /\ warns = warnings st.
Proof.
  rewrite validate_stages.
  destruct (SkillValidator._validate_folder_structure env st0)
    as [[] st1|e]; [|discriminate].
  destruct (SkillValidator._validate_skill_md safe_load env st1)
    as [[] st2|e]; [|discriminate].
  intros H; inversion H; subst.
  repeat split; try reflexivity.
  - destruct (errors st); [reflexivity | discriminate].
  - now intros ->.
Qed.

(** A run with three warnings and no error is valid; one with an error
    and no warning is not. *)
Lemma valid_iff_no_errors_witness :
  (true = true <->
   @nil string = [])
  /\ (false = true <-> ["Invalid or missing YAML frontmatter"] = []).
Proof.
  split.
  - apply (valid_iff_no_errors PyYAML.safe_load
             (my_skill ("---" ++ PyStr.nl ++ "description: does x use when y"
                        ++ PyStr.nl ++ "name: my-skill" ++ PyStr.nl ++ "---"))
             empty_state
             (mkState []
                ["Missing recommended section: 'When to Use'";
                 "Missing recommended section: 'Quick Start'";
                 "Missing recommended section: 'Examples'"])
             true []
             ["Missing recommended section: 'When to Use'";
              "Missing recommended section: 'Quick Start'";
              "Missing recommended section: 'Examples'"]).
    vm_compute. reflexivity.
  - apply (valid_iff_no_errors PyYAML.safe_load (my_skill "# Title")
             empty_state
             (mkState ["Invalid or missing YAML frontmatter"] [])
             false ["Invalid or missing YAML frontmatter"] []).
    vm_compute. reflexivity.
Defined.

(** C5. When the structure checks record no error and the text of
    [SKILL.md] does not start with the delimiter, the run stops after the
    line-count advisory: its error list is the single message about the
    frontmatter, and neither the metadata fields nor the content are
    checked. *)
Theorem no_delimiter_single_error
        (safe_load : string -> yaml_result) (env : skill_env) (text : string) :
  SkillValidator.skill_md env = Some (ReadOk text) ->
  SkillValidator._validate_folder_structure env SkillValidator.init
  = Returned tt SkillValidator.init ->
  PyStr.startswith "---" text = false ->
  SkillValidator._validate_skill_md safe_load env SkillValidator.init
  = (SkillValidator.check_line_count text ;;
     add_error "Invalid or missing YAML frontmatter")%run SkillValidator.init
  /\ SkillValidator.run safe_load env
     = Returned (false, ["Invalid or missing YAML frontmatter"],
                 line_count_warnings text)
                (mkState ["Invalid or missing YAML frontmatter"]
                         (line_count_warnings text)).
Proof.
  intros Hmd Hfs Hstart.
  assert (E : SkillValidator._validate_skill_md safe_load env SkillValidator.init
              = (SkillValidator.check_line_count text ;;
                 add_error "Invalid or missing YAML frontmatter")%run
                  SkillValidator.init).
  { unfold SkillValidator._validate_skill_md. rewrite Hmd.
    unfold bind. rewrite check_line_count_run.
    now rewrite parse_no_delimiter. }
  split; [exact E|].
  unfold SkillValidator.run. rewrite validate_stages, Hfs, E.
  unfold bind. rewrite check_line_count_run. reflexivity.
Qed.

(** A plain markdown file in a well-named folder. *)
Lemma no_delimiter_single_error_witness :
  SkillValidator.run PyYAML.safe_load (my_skill "# My skill")
  = Returned (false, ["Invalid or missing YAML frontmatter"], [])
             (mkState ["Invalid or missing YAML frontmatter"] []).
Proof.
  apply (no_delimiter_single_error PyYAML.safe_load (my_skill "# My skill")
           "# My skill"); reflexivity.
Defined.

(** In a folder that holds [SKILL.md] the run is the check of the base
    name followed by the checks of the document. *)
Lemma run_with_skill_md
      (safe_load : string -> yaml_result) (env : skill_env)
      (doc : read_result) :
  fs env = SkillDir (Some doc) ->
  SkillValidator.run safe_load env
  = match SkillValidator._validate_skill_md safe_load env empty_state with
    | Returned _ d =>
        let errs := (folder_name_errors (folder_name env) ++ errors d)%list in
        Returned ((List.length errs =? 0)%nat, errs, warnings d)
                 (mkState errs (warnings d))
    | Raised e => Raised e
    end.
Proof.
  intros F. unfold SkillValidator.run. rewrite validate_stages.
  rewrite (folder_structure_with_skill_md env doc _ F).
  rewrite (appends_validate_skill_md safe_load env).
  destruct (SkillValidator._validate_skill_md safe_load env empty_state)
    as [[] d|e]; reflexivity.
Qed.

(** ** Blank metadata blocks *)

Section BlankFacts.
Import PyStr.

Lemma all_chars_append (p : ascii -> bool) (a b : string) :
  all_chars p (a ++ b) = all_chars p a && all_chars p b.
Proof.
  induction a as [|c a IH]; [reflexivity|].
  cbn [append all_chars]. now rewrite IH, andb_assoc.
Qed.

Lemma all_chars_weaken (p q : ascii -> bool) (s : string) :
  (forall c, p c = true -> q c = true) ->
  all_chars p s = true -> all_chars q s = true.
Proof.
  intros W. induction s as [|c s IH]; [reflexivity|].
  cbn [all_chars]. intros H. apply andb_prop in H as [H1 H2].
  now rewrite (W c H1), IH.
Qed.

(** A text without hyphen holds no delimiter, even when two hyphens
    follow it. *)
Lemma no_hyphen_no_delimiter (block : string) :
  all_chars (fun c => negb (Ascii.eqb "-" c)) block = true ->
  contains "---" (block ++ "--") = false.
Proof.
  unfold contains. induction block as [|c block IH]; [reflexivity|].
  cbn [all_chars append]. intros H. apply andb_prop in H as [H1 H2].
  rewrite find_cut_eq, prefix_cons.
  apply negb_true_iff in H1. rewrite H1.
  specialize (IH H2).
  now destruct (find_cut "---" (block ++ "--")) as [[? ?]|].
Qed.

Lemma blank_no_delimiter (block : string) :
  PyYAML.is_blank block = true ->
  contains "---" (block ++ "--") = false.
Proof.
  intros H. apply no_hyphen_no_delimiter.
  revert H. apply all_chars_weaken. intros c.
  unfold PyYAML.is_space.
  destruct (Ascii.eqb_spec c " ") as [->|_]; [reflexivity|].
  destruct (Ascii.eqb_spec c LF) as [->|_]; [reflexivity|discriminate].
Qed.

(** The text before the first line feed holds none. *)
Lemma find_cut_nl_before (s a b : string) :
  find_cut nl s = Some (a, b) ->
  all_chars (fun c => negb (Ascii.eqb LF c)) a = true.
Proof.
  revert a; induction s as [|c s IH]; intros a H; [discriminate|].
  rewrite find_cut_nl_cons in H.
  destruct (Ascii.eqb LF c) eqn:E.
  - now inversion H.
  - destruct (find_cut nl s) as [[a' b']|]; [|discriminate].
    inversion H; subst. cbn [all_chars]. rewrite E. simpl.
    now apply IH.
Qed.

Lemma find_cut_nl_none (s : string) :
  find_cut nl s = None ->
  all_chars (fun c => negb (Ascii.eqb LF c)) s = true.
Proof.
  induction s as [|c s IH]; [reflexivity|].
  rewrite find_cut_nl_cons.
  destruct (Ascii.eqb LF c) eqn:E; [discriminate|].
  destruct (find_cut nl s) as [[a' b']|]; [discriminate|].
  intros _. cbn [all_chars]. rewrite E. simpl. now apply IH.
Qed.

Lemma blank_line_is_spaces (s : string) :
  PyYAML.is_blank s = true ->
  all_chars (fun c => negb (Ascii.eqb LF c)) s = true ->
  all_chars PyYAML.is_space s = true.
Proof.
  unfold PyYAML.is_blank.
  induction s as [|c s IH]; [reflexivity|].
  cbn [all_chars]. intros H1 H2.
  apply andb_prop in H1 as [B1 B2]. apply andb_prop in H2 as [N1 N2].
  rewrite (IH B2 N2), andb_true_r.
  rewrite Ascii.eqb_sym in N1. apply negb_true_iff in N1.
  now rewrite N1, orb_false_r in B1.
Qed.

(** Every line of a blank text is made of spaces. *)
Lemma blank_lines (n : nat) (s : string) :
  count_char LF s <= n ->
  PyYAML.is_blank s = true ->
  Forall (fun l => all_chars PyYAML.is_space l = true) (split_upto n nl s).
Proof.
  revert s; induction n as [|n IH]; intros s C B;
    pose proof (find_cut_nl_count s) as K.
  - constructor; [|constructor].
    destruct (find_cut nl s) as [[a b]|] eqn:F; [lia|].
    apply blank_line_is_spaces; [exact B | now apply find_cut_nl_none].
  - simpl split_upto. destruct (find_cut nl s) as [[a b]|] eqn:F.
    + pose proof (find_cut_sound _ _ _ _ F) as E.
      unfold PyYAML.is_blank in B. rewrite E, !all_chars_append in B.
      apply andb_prop in B as [Ba B']. apply andb_prop in B' as [_ Bb].
      constructor.
      * apply blank_line_is_spaces; [exact Ba|].
        eapply find_cut_nl_before; exact F.
      * apply IH; [lia | exact Bb].
    + constructor; [|constructor].
      apply blank_line_is_spaces; [exact B | now apply find_cut_nl_none].
Qed.

(** The fragment decoder reads a blank text as an empty document. *)
Lemma fragment_blank_is_none (s : string) :
  PyYAML.is_blank s = true -> PyYAML.safe_load s = YamlOk PyNone.
Proof.
  intros B. unfold PyYAML.safe_load, split.
  pose proof (blank_lines (length s) s (count_char_le_length LF s) B) as L.
  induction L as [|l ls Hl _ IH]; [reflexivity|].
  simpl filter. now rewrite Hl.
Qed.

End BlankFacts.

(** ** The metadata parser *)

(** C1, as the code has it.  A blank metadata block (spaces and line feeds
    only) is an empty YAML document, which the decoder reads as [None] and
    not as an empty mapping.  The parser therefore reports a failure: the
    run records "Invalid or missing YAML frontmatter" after the errors of
    the structure checks and stops; no metadata field is validated, so the
    missing-description error is not recorded, and the content is not
    checked. *)
Theorem blank_block_is_parse_failure
        (safe_load : string -> yaml_result) (env : skill_env)
        (block body : string) :
  (forall s, PyYAML.is_blank s = true -> safe_load s = YamlOk PyNone) ->
  PyYAML.is_blank block = true ->
  SkillValidator.skill_md env
  = Some (ReadOk ("---" ++ block ++ "---" ++ body)) ->
  (forall st,
      SkillValidator._parse_frontmatter
        safe_load ("---" ++ block ++ "---" ++ body) st
      = Returned PyNone st)
  /\ SkillValidator._validate_skill_md safe_load env empty_state
     = Returned tt
         (mkState ["Invalid or missing YAML frontmatter"]
                  (line_count_warnings ("---" ++ block ++ "---" ++ body)))
  /\ SkillValidator.run safe_load env
     = Returned
         (false,
          (folder_name_errors (folder_name env)
           ++ ["Invalid or missing YAML frontmatter"])%list,
          line_count_warnings ("---" ++ block ++ "---" ++ body))
         (mkState
            (folder_name_errors (folder_name env)
             ++ ["Invalid or missing YAML frontmatter"])%list
            (line_count_warnings ("---" ++ block ++ "---" ++ body))).
Proof.
  intros Hdec Hblank Hmd.
  assert (P : forall st,
             SkillValidator._parse_frontmatter
               safe_load ("---" ++ block ++ "---" ++ body) st
             = Returned PyNone st).
  { intros st. rewrite parse_delimited by now apply blank_no_delimiter.
    now rewrite (Hdec block Hblank). }
  assert (S : SkillValidator._validate_skill_md safe_load env empty_state
              = Returned tt
                  (mkState ["Invalid or missing YAML frontmatter"]
                     (line_count_warnings ("---" ++ block ++ "---" ++ body)))).
  { unfold SkillValidator._validate_skill_md. rewrite Hmd.
    unfold bind. rewrite check_line_count_run, P. reflexivity. }
  split; [exact P|]. split; [exact S|].
  unfold SkillValidator.run. rewrite validate_stages.
  assert (F : fs env = SkillDir (Some (ReadOk ("---" ++ block ++ "---" ++ body)))).
  { unfold SkillValidator.skill_md in Hmd.
    destruct (fs env) as [| |md]; try discriminate. now subst md. }
  rewrite (folder_structure_with_skill_md env _ _ F).
  rewrite (appends_validate_skill_md safe_load env), S.
  unfold extend; simpl.
  destruct (folder_name_errors (folder_name env)); reflexivity.
Qed.

(** A document whose metadata block is a single empty line. *)
Lemma blank_block_is_parse_failure_witness :
  SkillValidator.run PyYAML.safe_load
    (my_skill ("---" ++ PyStr.nl ++ "---" ++ PyStr.nl ++ "# Title"))
  = Returned (false, ["Invalid or missing YAML frontmatter"], [])
             (mkState ["Invalid or missing YAML frontmatter"] []).
Proof.
  apply (blank_block_is_parse_failure PyYAML.safe_load
           (my_skill ("---" ++ PyStr.nl ++ "---" ++ PyStr.nl ++ "# Title"))
           PyStr.nl (PyStr.nl ++ "# Title")
           fragment_blank_is_none eq_refl eq_refl).
Defined.

(** C1, as the claim has it, fails: with an empty line between the two
    delimiters the parser does not give the empty mapping, the run records
    the parse-failure error, and the missing-description error is absent. *)
Lemma blank_block_counterexample :
  let text := "---" ++ PyStr.nl ++ "---" ++ PyStr.nl ++ "# Title" in
  SkillValidator._parse_frontmatter PyYAML.safe_load text empty_state
  <> Returned (PyDict []) empty_state
  /\ exists errs warns st,
      SkillValidator.run PyYAML.safe_load (my_skill text)
      = Returned (false, errs, warns) st
      /\ In "Invalid or missing YAML frontmatter" errs
      /\ ~ In "Missing required 'description' field" errs.
Proof.
  cbv zeta. split.
  - vm_compute. discriminate.
  - exists ["Invalid or missing YAML frontmatter"], [],
      (mkState ["Invalid or missing YAML frontmatter"] []).
    split; [vm_compute; reflexivity|].
    split; [now left|].
    intros [H|[]]. discriminate H.
Qed.




(** C9. The delimiter is the three-character text [---] wherever it
    stands, and only its first two occurrences count.  For a text that
    opens with it, let [block] run up to the next occurrence: the segments
    are the empty prefix, [block] and everything after, whatever the body
    holds, and the parser gives what the decoder gives on [block]. *)
Theorem delimiter_is_a_substring
        (safe_load : string -> yaml_result) (block body : string)
        (st : run_state) :
  PyStr.contains "---" (block ++ "--") = false ->
  PyStr.split "---" (Some 2) ("---" ++ block ++ "---" ++ body)
  = [""; block; body]
  /\ SkillValidator._parse_frontmatter
       safe_load ("---" ++ block ++ "---" ++ body) st
     = match safe_load block with
       | YamlOk v => Returned v st
       | YamlError detail =>
           Returned PyNone
                    (extend st (mkState ["YAML parsing error: " ++ detail] []))
       | YamlRaises e => Raised e
       end.
Proof.
  intros H. split.
  - now apply split_frontmatter.
  - now apply parse_delimited.
Qed.

(** The second delimiter in the middle of a line, and a third one in the
    body. *)
Lemma delimiter_is_a_substring_witness :
  (PyStr.split "---" (Some 2) "---key: v---body" = [""; "key: v"; "body"]
   /\ SkillValidator._parse_frontmatter
        PyYAML.safe_load "---key: v---body" empty_state
      = Returned (PyDict [("key", PyStr "v")]) empty_state)
  /\ (PyStr.split "---" (Some 2) "---key: v---body---more"
      = [""; "key: v"; "body---more"]
      /\ SkillValidator._parse_frontmatter
           PyYAML.safe_load "---key: v---body---more" empty_state
         = Returned (PyDict [("key", PyStr "v")]) empty_state).
Proof.
  split.
  - apply (delimiter_is_a_substring PyYAML.safe_load "key: v" "body"
             empty_state).
    reflexivity.
  - apply (delimiter_is_a_substring PyYAML.safe_load "key: v" "body---more"
             empty_state).
    reflexivity.
Defined.

(** ** The matcher finds what the pattern denotes *)

Section RegexFacts.
Import PyStr Regex.

Lemma one_char_spec (p : ascii -> bool) (s s' : string) :
  In s' (one_char p s) <-> exists c, p c = true /\ s = String c s'.
Proof.
  destruct s as [|c s]; simpl.
  - split; [intros [] | intros (c & _ & E); discriminate].
  - destruct (p c) eqn:P; simpl.
    + split.
      * intros [->|[]]. now exists c.
      * intros (c' & _ & E). inversion E. now left.
    + split; [intros [] | intros (c' & P' & E)].
      inversion E; subst. congruence.
Qed.

Lemma nonempty_iff {A : Type} (l : list A) :
  nonempty l = true <-> exists x, In x l.
Proof.
  destruct l as [|x l]; simpl.
  - split; [discriminate | intros (x & [])].
  - split; [intros _; exists x; now left | reflexivity].
Qed.

Lemma join_app (u v : list string) : join (u ++ v) = join u ++ join v.
Proof.
  induction u as [|w u IH]; [reflexivity|].
  simpl. now rewrite IH, append_assoc.
Qed.

Section Iterate.

Variable step : bool -> string -> list string.
Variable L : string -> Prop.
Hypothesis step_spec :
  forall b s s', In s' (step b s) <-> exists w, s = w ++ s' /\ L w.

Lemma iterate_sound (fuel : nat) :
  forall b s s',
    In s' (iterate step fuel b s) ->
    exists ws, s = join ws ++ s' /\ Forall L ws.
Proof.
  induction fuel as [|fuel IH]; intros b s s' H.
  - destruct H as [<-|[]]. exists []. now split.
  - destruct H as [<-|H]; [exists []; now split|].
    apply in_flat_map in H as (s1 & H1 & H2).
    destruct (length s1 <? length s)%nat; [|destruct H2].
    apply step_spec in H1 as (w & -> & Lw).
    apply IH in H2 as (ws & -> & Lws).
    exists (w :: ws). split; [|now constructor].
    simpl. now rewrite append_assoc.
Qed.

Lemma iterate_complete (ws : list string) :
  Forall L ws ->
  forall fuel b s s',
    length s <= fuel ->
    s = join ws ++ s' ->
    In s' (iterate step fuel b s).
Proof.
  induction 1 as [|w ws Lw _ IH]; intros fuel b s s' F E.
  - simpl in E. subst. destruct fuel; now left.
  - simpl in E. rewrite append_assoc in E.
    destruct w as [|c w].
    + now apply IH.
    + assert (Hlen : length (join ws ++ s') < length s)
        by (subst s; simpl; rewrite !length_append; lia).
      destruct fuel as [|fuel]; [lia|].
      right. apply in_flat_map. exists (join ws ++ s'). split.
      * apply step_spec. now exists (String c w).
      * apply Nat.ltb_lt in Hlen as Hlt. rewrite Hlt.
        apply IH; [lia | reflexivity].
Qed.

End Iterate.

(** The remainders the matcher computes are those the denotation
    allows. *)
Theorem rests_lang (r : regex) :
  anchor_free r = true ->
  forall b s s',
    In s' (rests r b s) <-> exists w, s = w ++ s' /\ lang r w.
Proof.
  induction r as [|c| |ranges| | |r1 IH1 r2 IH2|g r1 IH1];
    intros AF b s s'; simpl in AF; try discriminate.
  - simpl. split.
    + intros [<-|[]]. now exists "".
    + intros (w & -> & ->). now left.
  - simpl rests. rewrite one_char_spec. split.
    + intros (c' & E & ->). apply Ascii.eqb_eq in E as <-.
      now exists (String c "").
    + intros (w & -> & ->). exists c. split; [apply Ascii.eqb_refl|reflexivity].
  - simpl rests. rewrite one_char_spec. split.
    + intros (c' & E & ->). apply negb_true_iff in E.
      exists (String c' ""). split; [reflexivity|]. now exists c'.
    + intros (w & -> & c' & E & ->). exists c'.
      split; [now apply negb_true_iff | reflexivity].
  - simpl rests. rewrite one_char_spec. split.
    + intros (c' & E & ->).
      exists (String c' ""). split; [reflexivity|]. now exists c'.
    + intros (w & -> & c' & E & ->). now exists c'.
  - apply andb_prop in AF as [AF1 AF2].
    simpl rests. rewrite in_flat_map. split.
    + intros (s1 & H1 & H2).
      apply (IH1 AF1) in H1 as (w1 & -> & L1).
      apply (IH2 AF2) in H2 as (w2 & -> & L2).
      exists (w1 ++ w2). split; [now rewrite append_assoc|].
      now exists w1, w2.
    + intros (w & -> & w1 & w2 & -> & L1 & L2).
      exists (w2 ++ s'). split.
      * apply (IH1 AF1). exists w1. split; [apply append_assoc | exact L1].
      * apply (IH2 AF2). now exists w2.
  - simpl rests. split.
    + intros H.
      apply (iterate_sound (rests r1) (lang r1)) in H
        as (ws & -> & Lws).
      * exists (join ws). split; [reflexivity|]. now exists ws.
      * intros; now apply IH1.
    + intros (w & -> & ws & -> & Lws).
      apply (iterate_complete (rests r1) (lang r1)) with (ws := ws);
        [intros; now apply IH1 | exact Lws | lia | reflexivity].
Qed.

Lemma search_from_lang (r : regex) (s : string) (b : bool) :
  anchor_free r = true ->
  search_from r b s = true <->
  exists pre w post, s = pre ++ w ++ post /\ lang r w.
Proof.
  intros AF. revert b. induction s as [|c s IH]; intros b.
  - change (search_from r b "") with (nonempty (rests r b "") || false).
    rewrite orb_false_r, nonempty_iff. split.
    + intros (s' & H). apply (rests_lang r AF) in H as (w & E & Lw).
      now exists "", w, s'.
    + intros (pre & w & post & E & Lw).
      destruct pre; [|discriminate]. simpl in E.
      exists post. apply (rests_lang r AF). now exists w.
  - change (search_from r b (String c s))
      with (nonempty (rests r b (String c s)) || search_from r false s).
    rewrite orb_true_iff, nonempty_iff, IH. split.
    + intros [(s' & H)|(pre & w & post & -> & Lw)].
      * apply (rests_lang r AF) in H as (w & E & Lw).
        now exists "", w, s'.
      * now exists (String c pre), w, post.
    + intros (pre & w & post & E & Lw).
      destruct pre as [|c' pre]; simpl in E.
      * left. exists post. apply (rests_lang r AF). now exists w.
      * right. inversion E; subst. now exists pre, w, post.
Qed.

(** [search] succeeds exactly on the texts that hold a match. *)
Theorem re_search_lang (r : regex) (s : string) :
  anchor_free r = true ->
  re_search r s = true <->
  exists pre w post, s = pre ++ w ++ post /\ lang r w.
Proof. apply search_from_lang. Qed.

End RegexFacts.

(** ** What [ref_pattern] matches *)

Section RefPattern.
Import PyStr Regex SkillValidator.

Lemma no_lf_append (a b : string) : no_lf (a ++ b) = no_lf a && no_lf b.
Proof. apply all_chars_append. Qed.

Lemma lang_lit (u w : string) : lang (Lit u) w <-> w = u.
Proof.
  revert w; induction u as [|c u IH]; intros w; simpl; [reflexivity|].
  split.
  - intros (w1 & w2 & -> & -> & H). apply IH in H. now subst.
  - intros ->. exists (String c ""), u. repeat split. now apply IH.
Qed.

Lemma lang_star_dot (g : bool) (w : string) :
  lang (Star g Dot) w <-> no_lf w = true.
Proof.
  simpl. split.
  - intros (ws & -> & H). induction H as [|x ws (c & E & ->) _ IH].
    + reflexivity.
    + simpl join. unfold no_lf in *. cbn [append all_chars].
      now rewrite E, IH.
  - induction w as [|c w IH]; intros H.
    + exists []. now split.
    + unfold no_lf in H. cbn [all_chars] in H.
      apply andb_prop in H as [H1 H2]. apply negb_true_iff in H1.
      destruct (IH H2) as (ws & -> & F).
      exists (String c "" :: ws). split; [reflexivity|].
      constructor; [now exists c | exact F].
Qed.

Lemma lang_star_lit_no_lf (g : bool) (u w : string) :
  no_lf u = true -> lang (Star g (Lit u)) w -> no_lf w = true.
Proof.
  intros U (ws & -> & H). induction H as [|x ws Hx _ IH].
  - reflexivity.
  - apply lang_lit in Hx. subst x. simpl join.
    now rewrite no_lf_append, U, IH.
Qed.

(** A match of [ref_pattern]: an opening bracket, a label without line
    feed, the closing bracket and the opening parenthesis, two traversal
    segments, a rest without line feed, the closing parenthesis. *)
Lemma lang_ref_pattern (w : string) :
  lang ref_pattern w <->
  exists l t,
    w = "[" ++ l ++ "](../../" ++ t ++ ")"
    /\ no_lf l = true /\ no_lf t = true.
Proof.
  unfold ref_pattern.
  change (AtLeast 2 (Lit "../"))
    with (Cat (Lit "../") (Cat (Lit "../") (Star true (Lit "../")))).
  split.
  - intros (w1 & w2 & -> & -> & l & w3 & -> & Hl & H3).
    apply lang_star_dot in Hl.
    destruct H3 as (x1 & w4 & -> & -> & x2 & w5 & -> & -> & H5).
    destruct H5 as (a & w6 & -> & Ha & t' & x3 & -> & Ht' & ->).
    apply lang_star_dot in Ht'.
    destruct Ha as (a1 & a' & -> & Ha1 & a2 & k & -> & Ha2 & Hk).
    apply lang_lit in Ha1, Ha2. subst a1 a2.
    apply (lang_star_lit_no_lf true "../") in Hk; [|reflexivity].
    exists l, (k ++ t'). split; [|split].
    + simpl. f_equal. f_equal. simpl. now rewrite !append_assoc.
    + exact Hl.
    + now rewrite no_lf_append, Hk, Ht'.
  - intros (l & t & -> & Hl & Ht).
    exists "[", (l ++ "](../../" ++ t ++ ")"). repeat split.
    exists l, ("](../../" ++ t ++ ")"). split; [reflexivity|].
    split; [now apply lang_star_dot|].
    exists "]", ("(../../" ++ t ++ ")"). repeat split.
    exists "(", ("../../" ++ t ++ ")"). repeat split.
    exists "../../", (t ++ ")"). split; [reflexivity|]. split.
    + exists "../", "../". split; [reflexivity|].
      split; [now apply lang_lit|].
      exists "../", "". split; [reflexivity|].
      split; [now apply lang_lit|].
      exists []. now split.
    + exists t, ")". split; [reflexivity|].
      split; [now apply lang_star_dot | reflexivity].
Qed.

Lemma ref_pattern_anchor_free : anchor_free ref_pattern = true.
Proof. reflexivity. Qed.

(** [ref_pattern.search] on a text. *)
Lemma search_ref_pattern (content : string) :
  re_search ref_pattern content = true <->
  exists pre l t post,
    content = pre ++ "[" ++ l ++ "](../../" ++ t ++ ")" ++ post
    /\ no_lf l = true /\ no_lf t = true.
Proof.
  rewrite (re_search_lang _ _ ref_pattern_anchor_free). split.
  - intros (pre & w & post & -> & H).
    apply lang_ref_pattern in H as (l & t & -> & Hl & Ht).
    exists pre, l, t, post. split; [|now split].
    f_equal. now rewrite !append_assoc.
  - intros (pre & l & t & post & -> & Hl & Ht).
    exists pre, ("[" ++ l ++ "](../../" ++ t ++ ")"), post. split.
    + f_equal. now rewrite !append_assoc.
    + apply lang_ref_pattern. now exists l, t.
Qed.

(** The content checks, stage by stage. *)
Lemma validate_content_run (content : string) (st : run_state) :
  _validate_content content st
  = Returned tt
      (mkState (errors st)
         (warnings st ++ section_warnings content
          ++ (if re_search ref_pattern content
              then [deep_reference_warning] else []))%list).
Proof.
  unfold _validate_content, section_warnings, recommended_sections,
    deep_reference_warning.
  destruct st as [e w].
  unfold bind; simpl for_each; unfold bind, when; simpl fst; simpl snd.
  destruct (contains "when to use" (lower content));
    destruct (contains "quick start" (lower content));
    destruct (contains "example" (lower content));
    destruct (re_search ref_pattern content);
    unfold ret, add_warning; cbn [negb errors warnings app];
    rewrite <- ?app_assoc; cbn [app]; rewrite ?app_nil_r; reflexivity.
Qed.

End RefPattern.

(** C3, as the code has it.  The content checker warns about deep
    references exactly when the text holds an opening bracket, any
    characters but line feeds, the closing bracket and the opening
    parenthesis immediately followed by two traversal segments [../../],
    any characters but line feeds, and a closing parenthesis.  The warning
    is appended after the section warnings, once however many links
    match. *)
Theorem deep_reference_warning_once (content : string) (st : run_state) :
  (Regex.re_search SkillValidator.ref_pattern content = true <->
   exists pre l t post,
     content = pre ++ "[" ++ l ++ "](../../" ++ t ++ ")" ++ post
     /\ no_lf l = true /\ no_lf t = true)
  /\ SkillValidator._validate_content content st
     = Returned tt
         (mkState (errors st)
            (warnings st ++ section_warnings content
             ++ (if Regex.re_search SkillValidator.ref_pattern content
                 then [deep_reference_warning] else []))%list)
  /\ count_occ string_dec
       (section_warnings content
        ++ (if Regex.re_search SkillValidator.ref_pattern content
            then [deep_reference_warning] else []))%list
       deep_reference_warning
     = (if Regex.re_search SkillValidator.ref_pattern content then 1 else 0)
  /\ Regex.re_search SkillValidator.ref_pattern "[x](../../y)" = true
  /\ Regex.re_search SkillValidator.ref_pattern
       "see [a](../../b) and [c](../../../d)" = true
  /\ Regex.re_search SkillValidator.ref_pattern "[x](../y)" = false.
Proof.
  split; [apply search_ref_pattern|].
  split; [apply validate_content_run|].
  split.
  - unfold section_warnings.
    destruct (PyStr.contains "when to use" (PyStr.lower content));
      destruct (PyStr.contains "quick start" (PyStr.lower content));
      destruct (PyStr.contains "example" (PyStr.lower content));
      destruct (Regex.re_search SkillValidator.ref_pattern content);
      vm_compute; reflexivity.
  - repeat split; vm_compute; reflexivity.
Qed.

(** C3, as the claim has it, fails: a target that reaches the two
    traversal segments after a first directory draws no warning. *)
Lemma deep_reference_counterexample :
  let text := "[x](docs/../../y)" in
  (exists label before rest,
      text = "[" ++ label ++ "](" ++ before ++ "../../" ++ rest ++ ")")
  /\ Regex.re_search SkillValidator.ref_pattern text = false
  /\ exists st,
      SkillValidator._validate_content text empty_state = Returned tt st
      /\ ~ In deep_reference_warning (warnings st).
Proof.
  cbv zeta. split; [|split].
  - now exists "x", "docs/", "y".
  - vm_compute. reflexivity.
  - eexists. split; [vm_compute; reflexivity|].
    simpl. unfold deep_reference_warning.
    intros [H|[H|[H|[]]]]; discriminate H.
Qed.

(** ** Metadata that is not what the checks expect *)

(** C2 fails on the code.  A metadata block that decodes to a mapping with
    a number under [name], to a mapping with a number under [description],
    to a plain string or to a number makes the run raise: [len()] of a
    number is a [TypeError], a string has no [get] method, a number cannot
    be iterated.  No result is returned. *)
Theorem non_string_metadata_escapes :
  let doc block :=
    my_skill ("---" ++ PyStr.nl ++ block ++ PyStr.nl ++ "---" ++ PyStr.nl) in
  SkillValidator.run PyYAML.safe_load
    (doc ("name: 123" ++ PyStr.nl ++ "description: does x use when y"))
  = Raised TypeError
  /\ SkillValidator.run PyYAML.safe_load
       (doc ("name: my-skill" ++ PyStr.nl ++ "description: 7"))
     = Raised TypeError
  /\ SkillValidator.run PyYAML.safe_load (doc "hello")
     = Raised AttributeError
  /\ SkillValidator.run PyYAML.safe_load (doc "42")
     = Raised TypeError.
Proof. repeat split; vm_compute; reflexivity. Qed.

(** C7 fails on the code.  The mapping [{name: 123}] has no description,
    and the run records no error about it: the check of [name] raises
    before the check of [description] is reached. *)
Theorem missing_description_not_reached :
  PyYAML.safe_load (PyStr.nl ++ "name: 123" ++ PyStr.nl)
  = YamlOk (PyDict [("name", PyInt 123)])
  /\ Py.lookup "description" [("name", PyInt 123)] = PyNone
  /\ SkillValidator._validate_frontmatter
       (my_skill "") (PyDict [("name", PyInt 123)]) empty_state
     = Raised TypeError
  /\ SkillValidator.run PyYAML.safe_load
       (my_skill ("---" ++ PyStr.nl ++ "name: 123" ++ PyStr.nl ++ "---"
                  ++ PyStr.nl))
     = Raised TypeError.
Proof. repeat split; vm_compute; reflexivity. Qed.

(** ** The metadata checks on a mapping *)

Section MetadataFacts.
Import SkillValidator.

Variable env : skill_env.

Lemma grows_ret : grows (ret tt).
Proof. intros st. exists empty_state. unfold ret. now rewrite extend_empty_r. Qed.

Lemma grows_add_error (msg : string) : grows (add_error msg).
Proof. intros st. now exists (mkState [msg] []); unfold add_error, extend;
         simpl; rewrite app_nil_r. Qed.

Lemma grows_add_warning (msg : string) : grows (add_warning msg).
Proof. intros st. now exists (mkState [] [msg]); unfold add_warning, extend;
         simpl; rewrite app_nil_r. Qed.

Lemma grows_bind (c : M unit) (k : unit -> M unit) :
  grows c -> grows (k tt) -> grows (bind c k).
Proof.
  intros Hc Hk st. unfold bind.
  destruct (Hc st) as (d1 & ->). destruct (Hk (extend st d1)) as (d2 & ->).
  exists (extend d1 d2). now rewrite extend_assoc.
Qed.

Lemma grows_when (b : bool) (c : M unit) : grows c -> grows (when b c).
Proof. intros H. destruct b; [exact H | apply grows_ret]. Qed.

Lemma grows_for_each {A : Type} (xs : list A) (body : A -> M unit) :
  (forall x, In x xs -> grows (body x)) -> grows (for_each xs body).
Proof.
  induction xs as [|x xs IH]; intros H; simpl.
  - apply grows_ret.
  - apply grows_bind; [apply H; now left|].
    apply IH. intros y Hy. apply H. now right.
Qed.

(** A string key is always accepted by the set lookup. *)
Lemma grows_check_key (k : string) : grows (check_key (PyStr k)).
Proof.
  unfold check_key, Py.hashable_text. intros st. unfold bind, ret.
  apply grows_when, grows_add_warning.
Qed.

Lemma grows_dict_keys (entries : list (string * pyvalue)) :
  grows (for_each (map (fun kv => PyStr (fst kv)) entries) check_key).
Proof.
  apply grows_for_each. intros x Hx.
  apply in_map_iff in Hx as (kv & <- & _). apply grows_check_key.
Qed.

Lemma grows_check_name (name : string) : grows (check_name env (PyStr name)).
Proof.
  unfold check_name.
  repeat first [ apply grows_bind | apply grows_when
               | apply grows_add_error | apply grows_add_warning ].
Qed.

Lemma grows_boolean_fields (entries : list (string * pyvalue)) :
  grows (for_each ["disable-model-invocation"; "user-invocable"]
                  (check_boolean_field (PyDict entries))).
Proof.
  apply grows_for_each. intros field _ st.
  unfold check_boolean_field, Py.get, bind, ret.
  apply grows_when, grows_add_error.
Qed.

(** The checks on a mapping, with the lookups done. *)
Lemma validate_frontmatter_mapping (entries : list (string * pyvalue))
      (st : run_state) :
  _validate_frontmatter env (PyDict entries) st
  = (for_each (map (fun kv => PyStr (fst kv)) entries) check_key ;;
     (if Py.truthy (Py.lookup "name" entries)
      then check_name env (Py.lookup "name" entries)
      else add_warning
             "No 'name' field in frontmatter (will use folder name)") ;;
     (if Py.truthy (Py.lookup "description" entries)
      then check_description (Py.lookup "description" entries)
      else add_error missing_description) ;;
     for_each ["disable-model-invocation"; "user-invocable"]
              (check_boolean_field (PyDict entries)))%run st.
Proof. reflexivity. Qed.

(** Metadata that is neither [None] nor a mapping makes the checks raise. *)
Lemma non_mapping_raises (v : pyvalue) (st : run_state) :
  Py.is_none v = false ->
  (forall entries, v <> PyDict entries) ->
  exists e, _validate_frontmatter env v st = Raised e.
Proof.
  intros N D. unfold _validate_frontmatter. rewrite N.
  destruct v as [|b|z|s|items|entries]; try discriminate;
    try (eexists; reflexivity).
  - unfold bind at 1. simpl Py.iter. unfold ret at 1.
    unfold bind at 1.
    destruct (for_each _ check_key st); eexists; reflexivity.
  - unfold bind at 1. simpl Py.iter. unfold ret at 1.
    unfold bind at 1.
    destruct (for_each _ check_key st); eexists; reflexivity.
  - now elim (D entries).
Qed.

(** A truthy [name] that is not a string makes the checks raise
    [TypeError], whatever the other fields. *)
Lemma non_string_name_raises (entries : list (string * pyvalue))
      (st : run_state) :
  Py.truthy (Py.lookup "name" entries) = true ->
  (forall s, Py.lookup "name" entries <> PyStr s) ->
  _validate_frontmatter env (PyDict entries) st = Raised TypeError.
Proof.
  intros T N. rewrite validate_frontmatter_mapping. unfold bind at 1.
  destruct (grows_dict_keys entries st) as (d & ->).
  unfold bind at 1. rewrite T.
  destruct (Py.lookup "name" entries) as [|b|z|s|items|es];
    try reflexivity.
  now elim (N s).
Qed.

(** With a [name] that is absent, falsy or a string, a mapping without a
    truthy [description] gets the error of the description check. *)
Lemma missing_description_recorded (entries : list (string * pyvalue))
      (st : run_state) :
  (Py.truthy (Py.lookup "name" entries) = false
   \/ exists s, Py.lookup "name" entries = PyStr s) ->
  Py.truthy (Py.lookup "description" entries) = false ->
  exists st',
    _validate_frontmatter env (PyDict entries) st = Returned tt st'
    /\ In missing_description (errors st').
Proof.
  intros Hname Hdesc. rewrite validate_frontmatter_mapping, Hdesc.
  unfold bind at 1. destruct (grows_dict_keys entries st) as (d1 & ->).
  unfold bind at 1.
  assert (G : grows (if Py.truthy (Py.lookup "name" entries)
                     then check_name env (Py.lookup "name" entries)
                     else add_warning
                            "No 'name' field in frontmatter (will use folder name)")).
  { destruct Hname as [F|(s & E)].
    - rewrite F. apply grows_add_warning.
    - rewrite E. destruct (Py.truthy (PyStr s));
        [apply grows_check_name | apply grows_add_warning]. }
  destruct (G (extend st d1)) as (d2 & ->).
  unfold bind at 1. unfold add_error at 1.
  destruct (grows_boolean_fields entries
              (mkState (errors (extend (extend st d1) d2) ++ [missing_description])
                       (warnings (extend (extend st d1) d2)))) as (d3 & ->).
  eexists. split; [reflexivity|].
  unfold extend; simpl. rewrite !in_app_iff. left. right. now left.
Qed.

End MetadataFacts.

(** ** The description error is recorded by the description check only *)

Section DescriptionFacts.
Import SkillValidator.

Variable env : skill_env.
Variable msg : string.

Lemma avoids_ret : avoids msg (ret tt).
Proof.
  intros st st' H. inversion H; subst. exists empty_state.
  split; [now rewrite extend_empty_r | intros []].
Qed.

Lemma avoids_raise (e : exn) : avoids msg (raise e).
Proof. intros st st' H. discriminate H. Qed.

Lemma avoids_add_warning (w : string) : avoids msg (add_warning w).
Proof.
  intros st st' H. inversion H; subst. exists (mkState [] [w]).
  split; [|intros []]. unfold extend; simpl. now rewrite app_nil_r.
Qed.

Lemma avoids_add_error (e : string) : e <> msg -> avoids msg (add_error e).
Proof.
  intros N st st' H. inversion H; subst. exists (mkState [e] []).
  split; [unfold extend; simpl; now rewrite app_nil_r|].
  intros [E|[]]. now elim N.
Qed.

Lemma avoids_bind (c : M unit) (k : unit -> M unit) :
  avoids msg c -> avoids msg (k tt) -> avoids msg (bind c k).
Proof.
  intros Hc Hk st st' H. unfold bind in H.
  destruct (c st) as [[] st1|e] eqn:E; [|discriminate].
  destruct (Hc _ _ E) as (d1 & -> & N1).
  destruct (Hk _ _ H) as (d2 & -> & N2).
  exists (extend d1 d2). split; [apply extend_assoc|].
  unfold extend; simpl. rewrite in_app_iff. tauto.
Qed.

Lemma avoids_when (b : bool) (c : M unit) :
  avoids msg c -> avoids msg (when b c).
Proof. intros H. destruct b; [exact H | apply avoids_ret]. Qed.

Lemma avoids_for_each {A : Type} (xs : list A) (body : A -> M unit) :
  (forall x, avoids msg (body x)) -> avoids msg (for_each xs body).
Proof.
  intros H. induction xs as [|x xs IH]; simpl.
  - apply avoids_ret.
  - apply avoids_bind; [apply H | exact IH].
Qed.

Lemma avoids_if (b : bool) (c1 c2 : M unit) :
  avoids msg c1 -> avoids msg c2 -> avoids msg (if b then c1 else c2).
Proof. now destruct b. Qed.

Lemma avoids_check_key (key : pyvalue) : avoids msg (check_key key).
Proof.
  unfold check_key, Py.hashable_text.
  destruct key as [|[|]|z|s|items|entries]; intros st st' H;
    try discriminate H;
    revert st st' H; apply avoids_when, avoids_add_warning.
Qed.

End DescriptionFacts.

Section DescriptionOnly.
Import SkillValidator.

Variable env : skill_env.

Ltac avoid :=
  repeat first
    [ apply avoids_bind | apply avoids_when | apply avoids_if
    | apply avoids_add_warning | apply avoids_raise
    | apply avoids_add_error; unfold missing_description; discriminate ].

Lemma avoids_check_name (name : pyvalue) :
  avoids missing_description (check_name env name).
Proof. unfold check_name. destruct name; avoid. Qed.

Lemma avoids_check_description (description : pyvalue) :
  avoids missing_description (check_description description).
Proof. unfold check_description. destruct description; avoid. Qed.

Lemma avoids_boolean_fields (entries : list (string * pyvalue)) :
  avoids missing_description
         (for_each ["disable-model-invocation"; "user-invocable"]
                   (check_boolean_field (PyDict entries))).
Proof.
  apply avoids_for_each. intros field st st' H.
  unfold check_boolean_field, Py.get, bind, ret in H.
  revert st st' H. avoid.
Qed.

(** A mapping with a truthy [description] never gets the error of the
    description check: either the checks raise, or what they append does
    not hold it. *)
Lemma present_description_not_flagged (entries : list (string * pyvalue)) :
  Py.truthy (Py.lookup "description" entries) = true ->
  avoids missing_description (_validate_frontmatter env (PyDict entries)).
Proof.
  intros T st st' H. rewrite validate_frontmatter_mapping, T in H.
  revert st st' H.
  apply avoids_bind; [apply avoids_for_each, avoids_check_key|].
  apply avoids_bind;
    [apply avoids_if; [apply avoids_check_name | apply avoids_add_warning]|].
  apply avoids_bind; [apply avoids_check_description|].
  apply avoids_boolean_fields.
Qed.

End DescriptionOnly.

(** ** What [NAME_PATTERN] matches *)

Section NamePattern.
Import PyStr Regex SkillValidator.

Lemma lang_star_class (g : bool) (ranges : list (ascii * ascii))
      (w : string) :
  lang (Star g (Class ranges)) w <-> all_chars (in_class ranges) w = true.
Proof.
  simpl. split.
  - intros (ws & -> & H). induction H as [|x ws (c & E & ->) _ IH].
    + reflexivity.
    + simpl join. cbn [append all_chars]. now rewrite E, IH.
  - induction w as [|c w IH]; intros H.
    + exists []. now split.
    + cbn [all_chars] in H. apply andb_prop in H as [H1 H2].
      destruct (IH H2) as (ws & -> & F).
      exists (String c "" :: ws). split; [reflexivity|].
      constructor; [now exists c | exact F].
Qed.

Lemma lang_segment (w : string) :
  lang (Plus lower_or_digit) w <-> is_segment w = true.
Proof.
  unfold Plus, lower_or_digit, is_segment. split.
  - intros (w1 & w2 & -> & (c & E & ->) & H).
    apply lang_star_class in H. cbn [append all_chars].
    now rewrite E, H.
  - intros H. apply andb_prop in H as [N A].
    destruct w as [|c w]; [discriminate|].
    cbn [all_chars] in A. apply andb_prop in A as [A1 A2].
    exists (String c ""), w. split; [reflexivity|].
    split; [now exists c | now apply lang_star_class].
Qed.

(** The body of the pattern: segments separated by single hyphens. *)
Lemma lang_name_body (w : string) :
  lang name_body w <->
  exists seg segs,
    w = seg ++ join (map (append "-") segs)
    /\ is_segment seg = true
    /\ Forall (fun x => is_segment x = true) segs.
Proof.
  unfold name_body. split.
  - intros (seg & w2 & -> & Hseg & ws & -> & Hws).
    apply lang_segment in Hseg.
    assert (K : exists segs, ws = map (append "-") segs
                             /\ Forall (fun x => is_segment x = true) segs).
    { induction Hws as [|x ws (h & x' & -> & -> & Hx') _ (segs & -> & F)].
      - exists []. now split.
      - apply lang_segment in Hx'. exists (x' :: segs).
        split; [reflexivity | now constructor]. }
    destruct K as (segs & -> & F). now exists seg, segs.
  - intros (seg & segs & -> & Hseg & F).
    exists seg, (join (map (append "-") segs)). split; [reflexivity|].
    split; [now apply lang_segment|].
    exists (map (append "-") segs). split; [reflexivity|].
    induction F as [|x segs Hx _ IH]; constructor; [|exact IH].
    exists "-", x. repeat split. now apply lang_segment.
Qed.

Lemma name_body_anchor_free : anchor_free name_body = true.
Proof. reflexivity. Qed.

Lemma rests_cat (r1 r2 : regex) (b : bool) (s s' : string) :
  In s' (rests (Cat r1 r2) b s) <->
  exists s1,
    In s1 (rests r1 b s)
    /\ In s' (rests r2 (b && (length s1 =? length s)%nat) s1).
Proof.
  change (rests (Cat r1 r2) b s)
    with (flat_map
            (fun s1 => rests r2 (b && (length s1 =? length s)%nat) s1)
            (rests r1 b s)).
  apply in_flat_map.
Qed.

Lemma rests_dollar (b : bool) (s s' : string) :
  In s' (rests Dollar b s) <-> s' = s /\ (s = "" \/ s = nl).
Proof.
  simpl rests.
  destruct (String.eqb_spec s "") as [E1|N1],
           (String.eqb_spec s nl) as [E2|N2]; simpl;
    split; try tauto;
      try (intros [<-|[]]; tauto); try (intros [-> _]; now left).
Qed.

(** [NAME_PATTERN.match]: the whole text is made of such segments; the
    end anchor also lets one line feed follow them. *)
Lemma name_pattern_match (s : string) :
  re_match NAME_PATTERN s = true <->
  exists w, lang name_body w /\ (s = w \/ s = w ++ nl).
Proof.
  unfold re_match. rewrite nonempty_iff. unfold NAME_PATTERN.
  set (A := Plus lower_or_digit).
  set (B := Star true (Cat (Chr "-") A)).
  assert (AFA : anchor_free A = true) by reflexivity.
  assert (AFB : anchor_free B = true) by reflexivity.
  split.
  - intros (s' & H).
    apply rests_cat in H as (s0 & H0 & H).
    destruct H0 as [<-|[]].
    apply rests_cat in H as (s1 & H1 & H).
    apply rests_cat in H as (s2 & H2 & H).
    apply rests_dollar in H as (-> & E).
    apply (rests_lang A AFA) in H1 as (w1 & -> & L1).
    apply (rests_lang B AFB) in H2 as (w2 & -> & L2).
    exists (w1 ++ w2). split; [now exists w1, w2|].
    destruct E as [->| ->]; [left | right].
    + now rewrite append_empty_r.
    + now rewrite append_assoc.
  - intros (w & (w1 & w2 & -> & L1 & L2) & E).
    assert (T : exists tail, s = w1 ++ w2 ++ tail /\ (tail = "" \/ tail = nl)).
    { destruct E as [->| ->].
      - exists "". split; [now rewrite append_empty_r | now left].
      - exists nl. split; [now rewrite append_assoc | now right]. }
    destruct T as (tail & -> & Ht).
    exists tail.
    apply rests_cat. exists (w1 ++ w2 ++ tail). split; [now left|].
    apply rests_cat. exists (w2 ++ tail). split.
    + apply (rests_lang A AFA). now exists w1.
    + apply rests_cat. exists tail. split.
      * apply (rests_lang B AFB). now exists w2.
      * now apply rests_dollar.
Qed.

End NamePattern.

(** ** A base name that ends in a line feed *)

Lemma hyphenated_chars (s : string) :
  hyphenated s -> PyStr.all_chars name_char s = true.
Proof.
  intros (seg & segs & S & F & ->).
  assert (K : forall x, is_segment x = true ->
                        PyStr.all_chars name_char x = true).
  { intros x H. unfold is_segment in H. apply andb_prop in H as [_ H].
    revert H. apply all_chars_weaken. intros c H. unfold name_char.
    now rewrite H. }
  rewrite all_chars_append, (K seg S). simpl andb.
  induction F as [|x segs Hx _ IH]; [reflexivity|].
  cbn [map join fold_right]. rewrite all_chars_append.
  cbn [append PyStr.all_chars]. rewrite (K x Hx). exact IH.
Qed.

(** C6 fails on the code.  [NAME_PATTERN] ends in [$], which Python also
    matches before a line feed that ends the text, and [Path.name] keeps
    such a line feed.  A base name made of a well-formed name and one line
    feed holds a character that is no lowercase letter, digit or hyphen
    and is not one of the names the pattern is meant for; yet the
    structure check records no error for it, and the run returns the
    findings of the document alone. *)
Theorem folder_name_line_feed_accepted
        (safe_load : string -> yaml_result) (env : skill_env)
        (doc : read_result) (w : string) :
  fs env = SkillDir (Some doc) ->
  hyphenated w ->
  folder_name env = w ++ PyStr.nl ->
  PyStr.all_chars name_char (folder_name env) = false
  /\ ~ hyphenated (folder_name env)
  /\ SkillValidator._validate_folder_structure env SkillValidator.init
     = Returned tt empty_state
  /\ SkillValidator.run safe_load env
     = match SkillValidator._validate_skill_md safe_load env empty_state with
       | Returned _ d =>
           Returned ((List.length (errors d) =? 0)%nat, errors d, warnings d)
                    d
       | Raised e => Raised e
       end.
Proof.
  intros F W N.
  assert (C : PyStr.all_chars name_char (folder_name env) = false).
  { rewrite N, all_chars_append. apply andb_false_intro2. reflexivity. }
  assert (A : folder_name_errors (folder_name env) = []).
  { unfold folder_name_errors.
    replace (Regex.re_match SkillValidator.NAME_PATTERN (folder_name env))
      with true; [reflexivity|].
    symmetry. apply name_pattern_match. exists w. split; [|now right].
    apply lang_name_body. destruct W as (seg & segs & S & Fs & E).
    now exists seg, segs. }
  split; [exact C|]. split; [|split].
  - intros H. apply hyphenated_chars in H. congruence.
  - rewrite (folder_structure_with_skill_md env doc _ F), A. reflexivity.
  - rewrite (run_with_skill_md safe_load env doc F), A.
    destruct (SkillValidator._validate_skill_md safe_load env empty_state)
      as [[] [errs warns]|e]; reflexivity.
Qed.

(** The folder [my-skill] with a line feed after its name, holding a
    document without findings of its own: the run declares the skill
    valid; the only finding is the warning that the name in the metadata
    is not the folder's. *)
Lemma folder_name_line_feed_accepted_witness :
  let text :=
    "---" ++ PyStr.nl ++ "name: my-skill" ++ PyStr.nl
    ++ "description: does x use when y" ++ PyStr.nl ++ "---"
    ++ PyStr.nl ++ "# When to Use" ++ PyStr.nl
    ++ "## Quick Start" ++ PyStr.nl ++ "## Examples" ++ PyStr.nl in
  let env :=
    mkEnv ("skills/my-skill" ++ PyStr.nl) ("my-skill" ++ PyStr.nl)
          (SkillDir (Some (ReadOk text))) in
  let warning :=
    "Name 'my-skill' doesn't match folder 'my-skill" ++ PyStr.nl ++ "'" in
  PyStr.all_chars name_char (folder_name env) = false
  /\ SkillValidator.run PyYAML.safe_load env
     = Returned (true, [], [warning]) (mkState [] [warning]).
Proof.
  cbv zeta.
  assert (H : hyphenated "my-skill").
  { exists "my", ["skill"]. split; [reflexivity|]. split; [|reflexivity].
    constructor; [reflexivity | constructor]. }
  match goal with
  | |- _ /\ SkillValidator.run _ ?env = _ =>
      destruct (folder_name_line_feed_accepted PyYAML.safe_load env
                  (ReadOk _) "my-skill" eq_refl H eq_refl)
        as (C & _ & _ & R)
  end.
  split; [exact C|]. rewrite R. vm_compute. reflexivity.
Defined.

(** ** What the metadata checks append *)

Section Emits.

Lemma emits_ret : emits empty_state (ret tt).
Proof. intros st. unfold ret. now rewrite extend_empty_r. Qed.

Lemma emits_add_error (msg : string) : emits (mkState [msg] []) (add_error msg).
Proof.
  intros st. unfold add_error, extend; simpl. now rewrite app_nil_r.
Qed.

Lemma emits_add_warning (msg : string) :
  emits (mkState [] [msg]) (add_warning msg).
Proof.
  intros st. unfold add_warning, extend; simpl. now rewrite app_nil_r.
Qed.

Lemma emits_bind (d1 d2 : run_state) (c : M unit) (k : unit -> M unit) :
  emits d1 c -> emits d2 (k tt) -> emits (extend d1 d2) (bind c k).
Proof.
  intros Hc Hk st. unfold bind. rewrite Hc, Hk. now rewrite extend_assoc.
Qed.

Lemma emits_when (b : bool) (d : run_state) (c : M unit) :
  emits d c -> emits (if b then d else empty_state) (when b c).
Proof. intros H. destruct b; [exact H | apply emits_ret]. Qed.

Lemma emits_eq (d d' : run_state) (m : M unit) :
  emits d m -> d = d' -> emits d' m.
Proof. now intros H <-. Qed.

End Emits.

Section Report.
Import SkillValidator.

Variable env : skill_env.

Lemma emits_check_key (k : string) :
  emits (mkState [] (if unknown_key k then [unknown_key_warning k] else []))
        (check_key (PyStr k)).
Proof.
  intros st.
  unfold check_key, Py.hashable_text, bind, Py.in_set, unknown_key, when.
  unfold ret at 1.
  destruct (existsb (String.eqb k) VALID_FRONTMATTER_KEYS); simpl.
  - apply emits_ret.
  - apply emits_add_warning.
Qed.

Lemma emits_dict_keys (entries : list (string * pyvalue)) :
  emits (mkState [] (key_warnings entries))
        (for_each (map (fun kv => PyStr (fst kv)) entries) check_key).
Proof.
  induction entries as [|[k v] entries IH]; simpl for_each.
  - apply emits_ret.
  - eapply emits_eq.
    + apply emits_bind; [apply emits_check_key | exact IH].
    + unfold key_warnings, extend. simpl.
      now destruct (unknown_key k).
Qed.

Lemma emits_name (entries : list (string * pyvalue)) :
  falsy_or_str (Py.lookup "name" entries) = true ->
  emits (mkState (name_errors (Py.lookup "name" entries))
                 (name_warnings (folder_name env) (Py.lookup "name" entries)))
        (if Py.truthy (Py.lookup "name" entries)
         then check_name env (Py.lookup "name" entries)
         else add_warning
                "No 'name' field in frontmatter (will use folder name)").
Proof.
  unfold falsy_or_str.
  destruct (Py.lookup "name" entries) as [|b|z|n|items|es]; simpl;
    try (intros _; apply emits_add_warning);
    try (destruct b; [discriminate | intros _; apply emits_add_warning]);
    try (destruct (Z.eqb z 0); [intros _; apply emits_add_warning
                               | discriminate]);
    try (destruct items; [intros _; apply emits_add_warning | discriminate]);
    try (destruct es; [intros _; apply emits_add_warning | discriminate]).
  intros _. destruct (String.eqb n ""); simpl; [apply emits_add_warning|].
  eapply emits_eq.
  - apply emits_bind; [apply emits_when, emits_add_error|].
    apply emits_bind; [apply emits_when, emits_add_error|].
    apply emits_when, emits_add_warning.
  - unfold MAX_NAME_LENGTH, extend.
    destruct (64 <? length n)%nat;
      destruct (Regex.re_match NAME_PATTERN n);
      destruct (String.eqb n (folder_name env)); reflexivity.
Qed.

Lemma emits_description (entries : list (string * pyvalue)) :
  falsy_or_str (Py.lookup "description" entries) = true ->
  emits (mkState (description_errors (Py.lookup "description" entries))
                 (description_warnings (Py.lookup "description" entries)))
        (if Py.truthy (Py.lookup "description" entries)
         then check_description (Py.lookup "description" entries)
         else add_error "Missing required 'description' field").
Proof.
  unfold falsy_or_str.
  destruct (Py.lookup "description" entries) as [|b|z|d|items|es].
  - intros _. apply emits_add_error.
  - destruct b; [discriminate | intros _; apply emits_add_error].
  - simpl. destruct (Z.eqb z 0); [intros _; apply emits_add_error
                                 | discriminate].
  - intros _. unfold description_errors, description_warnings,
      check_description.
    cbn [Py.truthy]. destruct (String.eqb d ""); cbn [negb];
      [apply emits_add_error|].
    eapply emits_eq.
    + apply emits_bind; [apply emits_when, emits_add_error|].
      apply emits_bind; [apply emits_when, emits_add_warning|].
      apply emits_when, emits_add_warning.
    + unfold MAX_DESCRIPTION_LENGTH, extend.
      destruct (1024 <? length d)%nat;
        destruct (PyStr.contains "use when" (PyStr.lower d));
        destruct (PyStr.startswith_any ["i "; "i'"; "we "] (PyStr.lower d));
        reflexivity.
  - destruct items; [intros _; apply emits_add_error | discriminate].
  - destruct es; [intros _; apply emits_add_error | discriminate].
Qed.

Lemma emits_boolean_field (entries : list (string * pyvalue))
      (field : string) :
  emits (mkState (boolean_error entries field) [])
        (check_boolean_field (PyDict entries) field).
Proof.
  intros st. unfold check_boolean_field, Py.get, bind, boolean_error, when.
  unfold ret at 1.
  destruct (negb (Py.is_none (Py.lookup field entries))
            && negb (Py.is_bool (Py.lookup field entries))).
  - apply emits_add_error.
  - apply emits_ret.
Qed.

Lemma emits_boolean_fields (entries : list (string * pyvalue)) :
  emits (mkState (boolean_errors entries) [])
        (for_each ["disable-model-invocation"; "user-invocable"]
                  (check_boolean_field (PyDict entries))).
Proof.
  simpl for_each. eapply emits_eq.
  - apply emits_bind; [apply emits_boolean_field|].
    apply emits_bind; [apply emits_boolean_field | apply emits_ret].
  - unfold boolean_errors, extend; simpl. now rewrite !app_nil_r.
Qed.

End Report.

(** ** When the metadata checks return *)

Section Returns.
Import SkillValidator.

Variable env : skill_env.

Lemma metadata_report_emitted (entries : list (string * pyvalue))
        (st : run_state) :
  well_typed (PyDict entries) = true ->
  _validate_frontmatter env (PyDict entries) st
  = Returned tt (extend st (frontmatter_report (folder_name env) entries)).
Proof.
  intros W. apply andb_prop in W as [Wn Wd].
  rewrite validate_frontmatter_mapping. revert st.
  eapply emits_eq.
  - apply emits_bind; [apply emits_dict_keys|].
    apply emits_bind; [apply emits_name; exact Wn|].
    apply emits_bind; [apply emits_description; exact Wd|].
    apply emits_boolean_fields.
  - unfold frontmatter_report, extend; simpl.
    now rewrite !app_nil_r.
Qed.

(** X4. On a mapping the checks can work on, every check runs and appends its
    own messages: nothing is skipped because of an earlier finding. *)
Theorem metadata_checks_all_run (entries : list (string * pyvalue))
        (st : run_state) :
  well_typed (PyDict entries) = true ->
  _validate_frontmatter env (PyDict entries) st
  = Returned tt (extend st (frontmatter_report (folder_name env) entries)).
Proof. intros W. now apply metadata_report_emitted. Qed.

(** A truthy [description] that is not a string makes the checks raise,
    also when the [name] is fine. *)
Lemma non_string_description_raises (entries : list (string * pyvalue))
      (st : run_state) :
  falsy_or_str (Py.lookup "name" entries) = true ->
  falsy_or_str (Py.lookup "description" entries) = false ->
  exists e, _validate_frontmatter env (PyDict entries) st = Raised e.
Proof.
  intros Wn Wd. rewrite validate_frontmatter_mapping.
  unfold bind at 1. rewrite (emits_dict_keys entries st).
  unfold bind at 1. rewrite (emits_name env entries Wn).
  unfold bind at 1. unfold falsy_or_str in Wd.
  apply orb_false_elim in Wd as [T S]. apply negb_false_iff in T.
  rewrite T.
  destruct (Py.lookup "description" entries); try discriminate;
    eexists; reflexivity.
Qed.

Lemma metadata_returns_iff (v : pyvalue) (st : run_state) :
  (exists st', _validate_frontmatter env v st = Returned tt st')
  <-> well_typed v = true.
Proof.
  split.
  - intros (st' & H).
    destruct (well_typed v) eqn:W; [reflexivity|]. exfalso.
    destruct v as [|b|z|s|items|entries]; try discriminate W.
    + destruct (non_mapping_raises env (PyBool b) st eq_refl) as (e & E);
        [discriminate | congruence].
    + destruct (non_mapping_raises env (PyInt z) st eq_refl) as (e & E);
        [discriminate | congruence].
    + destruct (non_mapping_raises env (PyStr s) st eq_refl) as (e & E);
        [discriminate | congruence].
    + destruct (non_mapping_raises env (PyList items) st eq_refl) as (e & E);
        [discriminate | congruence].
    + simpl in W.
      destruct (falsy_or_str (Py.lookup "name" entries)) eqn:Wn.
      * simpl in W.
        destruct (non_string_description_raises entries st Wn W) as (e & E).
        congruence.
      * unfold falsy_or_str in Wn.
        apply orb_false_elim in Wn as [T S]. apply negb_false_iff in T.
        rewrite (non_string_name_raises env entries st T) in H;
          [discriminate|].
        intros s E. rewrite E in S. discriminate.
  - intros W. destruct v as [|b|z|s|items|entries]; try discriminate W.
    + eexists; reflexivity.
    + eexists. now apply metadata_report_emitted.
Qed.

(** X3. The checks return exactly on [None] and on the mappings whose [name]
    and [description] are each falsy or a string; on anything else they
    raise. *)
Theorem metadata_checks_return_iff (v : pyvalue) (st : run_state) :
  (exists st', _validate_frontmatter env v st = Returned tt st')
  <-> well_typed v = true.
Proof. exact (metadata_returns_iff v st). Qed.

End Returns.

Lemma metadata_checks_all_run_witness :
  SkillValidator._validate_frontmatter (my_skill "")
    (PyDict [("name", PyStr "Other"); ("colour", PyInt 3);
             ("user-invocable", PyStr "yes")])
    empty_state
  = Returned tt
      (mkState
         ["Name 'Other' invalid. Use lowercase, numbers, hyphens only.";
          "Missing required 'description' field";
          "'user-invocable' must be a boolean (true/false)"]
         ["Unknown frontmatter key: 'colour'";
          "Name 'Other' doesn't match folder 'my-skill'"]).
Proof.
  rewrite (metadata_checks_all_run (my_skill "")
             [("name", PyStr "Other"); ("colour", PyInt 3);
              ("user-invocable", PyStr "yes")] empty_state eq_refl).
  vm_compute. reflexivity.
Defined.


(** ** Telling the messages apart *)

Section Messages.
Import PyStr.

Lemma append_inj_l (a x y : string) : a ++ x = a ++ y -> x = y.
Proof.
  induction a as [|c a IH]; simpl; intros H; [exact H|].
  injection H as H. now apply IH.
Qed.

Lemma append_inj_r (x y a : string) : x ++ a = y ++ a -> x = y.
Proof.
  revert y; induction x as [|c x IH]; intros [|d y] H; simpl in H.
  - reflexivity.
  - apply (f_equal length) in H. simpl in H. rewrite length_append in H. lia.
  - apply (f_equal length) in H. simpl in H. rewrite length_append in H. lia.
  - injection H as -> H. f_equal. now apply IH.
Qed.

Lemma unknown_key_warning_inj (k k' : string) :
  unknown_key_warning k = unknown_key_warning k' -> k = k'.
Proof.
  unfold unknown_key_warning. intros H.
  apply append_inj_l in H. now apply append_inj_r in H.
Qed.

Lemma key_warnings_first (entries : list (string * pyvalue)) (m : string) :
  In m (key_warnings entries) -> first_char m = Some "U"%char.
Proof.
  unfold key_warnings. intros H. apply in_map_iff in H as (k & <- & _).
  reflexivity.
Qed.

Lemma name_warnings_first (folder : string) (name : pyvalue) (m : string) :
  In m (name_warnings folder name) -> first_char m = Some "N"%char.
Proof.
  unfold name_warnings.
  destruct name as [|b|z|n|items|es];
    try (intros [<-|[]]; reflexivity).
  destruct (String.eqb n ""); [intros [<-|[]]; reflexivity|].
  destruct (String.eqb n folder); [intros []|intros [<-|[]]; reflexivity].
Qed.

Lemma description_warnings_first (description : pyvalue) (m : string) :
  In m (description_warnings description) -> first_char m = Some "D"%char.
Proof.
  unfold description_warnings.
  destruct description as [|b|z|d|items|es]; try (intros []).
  destruct (String.eqb d ""); [intros []|].
  destruct (contains "use when" (lower d));
    destruct (startswith_any ["i "; "i'"; "we "] (lower d)); simpl;
      intuition (subst; reflexivity).
Qed.

Lemma name_errors_first (name : pyvalue) (m : string) :
  In m (name_errors name) -> first_char m = Some "N"%char.
Proof.
  unfold name_errors.
  destruct name as [|b|z|n|items|es]; try (intros []).
  destruct (String.eqb n ""); [intros []|].
  destruct (64 <? length n)%nat;
    destruct (Regex.re_match SkillValidator.NAME_PATTERN n); simpl;
      intuition (subst; reflexivity).
Qed.

Lemma description_errors_first (description : pyvalue) (m : string) :
  In m (description_errors description) ->
  first_char m = Some "M"%char \/ first_char m = Some "D"%char.
Proof.
  unfold description_errors.
  destruct description as [|b|z|d|items|es];
    try (intros [<-|[]]; now left).
  destruct (String.eqb d ""); [intros [<-|[]]; now left|].
  destruct (1024 <? length d)%nat; [intros [<-|[]]; now right | intros []].
Qed.

Lemma boolean_errors_first (entries : list (string * pyvalue)) (m : string) :
  In m (boolean_errors entries) -> first_char m = Some "'"%char.
Proof.
  unfold boolean_errors, boolean_error. cbv zeta. intros H.
  apply in_app_iff in H as [H|H];
    match type of H with
    | In _ (if ?c then _ else _) => destruct c
    end; simpl in H; try contradiction;
    destruct H as [<-|[]]; reflexivity.
Qed.

End Messages.

(** ** Case-insensitive tests *)

Section LowerFacts.
Import PyStr.

Lemma lower_append (a b : string) : lower (a ++ b) = lower a ++ lower b.
Proof.
  induction a as [|c a IH]; [reflexivity|].
  cbn [append lower]. now rewrite IH.
Qed.

Lemma lower_split (d x y : string) :
  lower d = x ++ y ->
  exists a b, d = a ++ b /\ lower a = x /\ lower b = y.
Proof.
  revert d; induction x as [|c x IH]; intros d H.
  - exists "", d. now repeat split.
  - destruct d as [|e d]; [discriminate|].
    cbn [lower append] in H. injection H as Hc H.
    destruct (IH d H) as (a & b & -> & <- & <-).
    exists (String e a), b. repeat split. cbn [lower]. now rewrite Hc.
Qed.

(** [p in s.lower()]: some part of [s] reads [p] once lowercased. *)
Lemma contains_lower_iff (p d : string) :
  contains p (lower d) = true <->
  exists a u b, d = a ++ u ++ b /\ lower u = p.
Proof.
  rewrite contains_iff. split.
  - intros (x & y & H).
    apply lower_split in H as (a & r & -> & <- & H).
    apply lower_split in H as (u & b & -> & <- & <-).
    now exists a, u, b.
  - intros (a & u & b & -> & <-).
    exists (lower a), (lower b). now rewrite !lower_append.
Qed.

(** [s.lower().startswith(p)]: [s] opens with a text that reads [p] once
    lowercased. *)
Lemma startswith_lower_iff (p d : string) :
  startswith p (lower d) = true <->
  exists u rest, d = u ++ rest /\ lower u = p.
Proof.
  unfold startswith. split.
  - intros H. apply prefix_split in H.
    apply lower_split in H as (u & rest & -> & <- & _).
    now exists u, rest.
  - intros (u & rest & -> & <-).
    rewrite lower_append. apply prefix_append.
Qed.

End LowerFacts.

(** ** What each metadata check reports *)

Section FieldReports.
Import SkillValidator.

Variable env : skill_env.
Variable entries : list (string * pyvalue).
Variable st' : run_state.

Hypothesis returned :
  _validate_frontmatter env (PyDict entries) empty_state = Returned tt st'.

Lemma frontmatter_result :
  st' = frontmatter_report (folder_name env) entries.
Proof.
  assert (W : well_typed (PyDict entries) = true)
    by (apply (metadata_returns_iff env _ empty_state); now exists st').
  rewrite (metadata_report_emitted env entries empty_state W) in returned.
  inversion returned. now rewrite extend_empty_l.
Qed.

Lemma in_report_warnings (m : string) :
  In m (warnings st') <->
  In m (key_warnings entries)
  \/ In m (name_warnings (folder_name env) (Py.lookup "name" entries))
  \/ In m (description_warnings (Py.lookup "description" entries)).
Proof.
  rewrite frontmatter_result. unfold frontmatter_report; simpl.
  now rewrite !in_app_iff.
Qed.

Lemma in_report_errors (m : string) :
  In m (errors st') <->
  In m (name_errors (Py.lookup "name" entries))
  \/ In m (description_errors (Py.lookup "description" entries))
  \/ In m (boolean_errors entries).
Proof.
  rewrite frontmatter_result. unfold frontmatter_report; simpl.
  now rewrite !in_app_iff.
Qed.

(** X5. Every key outside the recognised set, and no other, gets the
    unknown-key warning. *)
Theorem unknown_key_warned (k : string) :
  In ("Unknown frontmatter key: '" ++ k ++ "'") (warnings st') <->
  In k (map fst entries) /\ ~ In k VALID_FRONTMATTER_KEYS.
Proof.
  change ("Unknown frontmatter key: '" ++ k ++ "'")
    with (unknown_key_warning k).
  rewrite in_report_warnings. split.
  - intros [H|[H|H]].
    + unfold key_warnings in H. apply in_map_iff in H as (k' & E & H).
      apply unknown_key_warning_inj in E. subst k'.
      apply filter_In in H as [H U]. split; [exact H|].
      unfold unknown_key in U. apply negb_true_iff in U.
      intros I. assert (T : existsb (String.eqb k) VALID_FRONTMATTER_KEYS = true)
        by (apply existsb_exists; exists k; split;
            [exact I | apply String.eqb_refl]).
      congruence.
    + apply name_warnings_first in H. discriminate H.
    + apply description_warnings_first in H. discriminate H.
  - intros [H N]. left. unfold key_warnings. apply in_map.
    apply filter_In. split; [exact H|].
    unfold unknown_key. apply negb_true_iff.
    destruct (existsb (String.eqb k) VALID_FRONTMATTER_KEYS) eqn:E;
      [|reflexivity].
    apply existsb_exists in E as (x & I & E). apply String.eqb_eq in E.
    subst x. now elim N.
Qed.

(** X7. A non-empty string [name] gets the mismatch warning exactly when it
    differs from the folder's base name; the comparison is exact. *)
Theorem name_mismatch_warned (n : string) :
  Py.lookup "name" entries = PyStr n -> n <> "" ->
  (In ("Name '" ++ n ++ "' doesn't match folder '" ++ folder_name env ++ "'")
      (warnings st')
   <-> n <> folder_name env).
Proof.
  intros L N.
  change ("Name '" ++ n ++ "' doesn't match folder '" ++ folder_name env ++ "'")
    with (name_mismatch n (folder_name env)).
  rewrite in_report_warnings, L. unfold name_warnings.
  apply String.eqb_neq in N. rewrite N.
  destruct (String.eqb_spec n (folder_name env)) as [E|D]; split.
  - intros [H|[[]|H]].
    + apply key_warnings_first in H. discriminate H.
    + apply description_warnings_first in H. discriminate H.
  - intros C. now elim C.
  - intros _. exact D.
  - intros _. right; left. now left.
Qed.

(** X6. A string [name] gets the length error exactly when it has more than
    64 characters, and the format error exactly when it is not empty and
    [NAME_PATTERN] does not match it. *)
Theorem name_errors_reported (n : string) :
  Py.lookup "name" entries = PyStr n ->
  (In ("Name '" ++ n ++ "' exceeds max length (64 chars)") (errors st')
   <-> 64 < length n)
  /\ (In ("Name '" ++ n ++ "' invalid. Use lowercase, numbers, hyphens only.")
         (errors st')
      <-> n <> "" /\ Regex.re_match NAME_PATTERN n = false).
Proof.
  intros L.
  change ("Name '" ++ n ++ "' exceeds max length (64 chars)")
    with (name_too_long n).
  change ("Name '" ++ n ++ "' invalid. Use lowercase, numbers, hyphens only.")
    with (name_invalid n).
  assert (D : name_too_long n <> name_invalid n).
  { unfold name_too_long, name_invalid. intros E.
    apply append_inj_l, append_inj_l in E. discriminate E. }
  assert (X : forall m, first_char m = Some "N"%char ->
                (In m (errors st') <-> In m (name_errors (PyStr n)))).
  { intros m F. rewrite in_report_errors, L. split; [|now left].
    intros [H|[H|H]]; [exact H| |].
    - apply description_errors_first in H as [H|H]; congruence.
    - apply boolean_errors_first in H. congruence. }
  rewrite !X by reflexivity. unfold name_errors.
  destruct (String.eqb_spec n "") as [->|N].
  - simpl. split; split; try tauto; lia.
  - destruct (Nat.ltb_spec 64 (length n)) as [Lt|Ge];
      destruct (Regex.re_match NAME_PATTERN n); simpl;
        split; split; intuition (try congruence; try lia).
Qed.

(** X8. The name is optional: when it is absent or falsy the run warns that
    the folder name will be used, and records no error about the name. *)
Theorem absent_name_warned :
  Py.truthy (Py.lookup "name" entries) = false ->
  In "No 'name' field in frontmatter (will use folder name)" (warnings st')
  /\ forall rest, ~ In ("Name '" ++ rest) (errors st').
Proof.
  intros F.
  cut (In "No 'name' field in frontmatter (will use folder name)"
          (warnings st')
       /\ forall m, In m (errors st') -> first_char m <> Some "N"%char).
  { intros [W E]. split; [exact W|].
    intros rest H. now apply (E _ H). }
  split.
  - apply in_report_warnings. right; left. unfold name_warnings.
    destruct (Py.lookup "name" entries) as [|b|z|n|items|es];
      try (now left).
    simpl in F. apply negb_false_iff in F. rewrite F. now left.
  - intros m H. apply in_report_errors in H as [H|[H|H]].
    + unfold name_errors in H.
      destruct (Py.lookup "name" entries) as [|b|z|n|items|es];
        try contradiction.
      simpl in F. apply negb_false_iff in F. rewrite F in H. contradiction.
    + apply description_errors_first in H as [H|H]; congruence.
    + apply boolean_errors_first in H. congruence.
Qed.

(** X10. A string [description] gets the length error exactly when it has more
    than 1024 characters. *)
Theorem description_length_reported (d : string) :
  Py.lookup "description" entries = PyStr d ->
  (In "Description exceeds max length (1024 chars)" (errors st')
   <-> 1024 < length d).
Proof.
  intros L. rewrite in_report_errors, L. unfold description_errors.
  split.
  - intros [H|[H|H]].
    + apply name_errors_first in H. discriminate H.
    + destruct (String.eqb d ""); [destruct H as [H|[]]; discriminate H|].
      destruct (Nat.ltb_spec 1024 (length d)); [assumption | contradiction].
    + apply boolean_errors_first in H. discriminate H.
  - intros Lt. right; left.
    destruct (String.eqb_spec d "") as [->|N]; [simpl in Lt; lia|].
    apply Nat.ltb_lt in Lt. rewrite Lt. now left.
Qed.

(** X11. A non-empty string [description] gets the trigger-condition warning
    exactly when no part of it reads "use when" once lowercased. *)
Theorem use_when_warned (d : string) :
  Py.lookup "description" entries = PyStr d -> d <> "" ->
  (In "Description should include 'Use when...' trigger conditions"
      (warnings st')
   <-> ~ exists a u b, d = a ++ u ++ b /\ PyStr.lower u = "use when").
Proof.
  intros L N. rewrite in_report_warnings, L.
  rewrite <- contains_lower_iff. unfold description_warnings.
  apply String.eqb_neq in N. rewrite N. split.
  - intros [H|[H|H]].
    + apply key_warnings_first in H. discriminate H.
    + apply name_warnings_first in H. discriminate H.
    + destruct (PyStr.contains "use when" (PyStr.lower d));
        [|discriminate].
      exfalso. cbn [app] in H.
      destruct (PyStr.startswith_any ["i "; "i'"; "we "] (PyStr.lower d));
        [destruct H as [H|[]]; discriminate H | contradiction].
  - intros C. right; right.
    destruct (PyStr.contains "use when" (PyStr.lower d));
      [now elim C | now left].
Qed.

(** X12. A non-empty string [description] gets the third-person warning
    exactly when it opens with a text that reads "i ", "i'" or "we " once
    lowercased. *)
Theorem first_person_warned (d : string) :
  Py.lookup "description" entries = PyStr d -> d <> "" ->
  (In "Description should be in third person (avoid 'I' or 'We')"
      (warnings st')
   <-> exists u rest,
        d = u ++ rest
        /\ (PyStr.lower u = "i " \/ PyStr.lower u = "i'"
            \/ PyStr.lower u = "we ")).
Proof.
  intros L N. rewrite in_report_warnings, L. unfold description_warnings.
  apply String.eqb_neq in N. rewrite N.
  assert (S : PyStr.startswith_any ["i "; "i'"; "we "] (PyStr.lower d) = true
              <-> exists u rest,
                   d = u ++ rest
                   /\ (PyStr.lower u = "i " \/ PyStr.lower u = "i'"
                       \/ PyStr.lower u = "we ")).
  { unfold PyStr.startswith_any. rewrite existsb_exists. split.
    - intros (p & I & H). apply startswith_lower_iff in H as (u & rest & E & Lu).
      exists u, rest. split; [exact E|].
      destruct I as [<-|[<-|[<-|[]]]]; tauto.
    - intros (u & rest & E & Lu).
      exists (PyStr.lower u). split.
      + destruct Lu as [->|[->| ->]]; simpl; tauto.
      + apply startswith_lower_iff. now exists u, rest. }
  rewrite <- S. split.
  - intros [H|[H|H]].
    + apply key_warnings_first in H. discriminate H.
    + apply name_warnings_first in H. discriminate H.
    + destruct (PyStr.startswith_any ["i "; "i'"; "we "] (PyStr.lower d));
        [reflexivity|].
      exfalso. rewrite app_nil_r in H.
      destruct (PyStr.contains "use when" (PyStr.lower d));
        [contradiction | destruct H as [H|[]]; discriminate H].
  - intros T. right; right. rewrite T. apply in_app_iff. right. now left.
Qed.

(** X9. Whenever the checks return, the description error is there exactly
    when the [description] is absent or falsy (an empty string, [None],
    [false], 0, an empty list or mapping). *)
Theorem missing_description_reported :
  In "Missing required 'description' field" (errors st')
  <-> Py.truthy (Py.lookup "description" entries) = false.
Proof.
  assert (W : well_typed (PyDict entries) = true)
    by (apply (metadata_returns_iff env _ empty_state); now exists st').
  apply andb_prop in W as [_ W]. unfold falsy_or_str in W.
  rewrite in_report_errors. unfold description_errors. split.
  - intros [H|[H|H]].
    + apply name_errors_first in H. discriminate H.
    + destruct (Py.lookup "description" entries) as [|b|z|d|items|es];
        simpl in W |- *; try reflexivity;
          try (rewrite orb_false_r in W; exact (proj1 (negb_true_iff _) W)).
      destruct (String.eqb d ""); [reflexivity|]. exfalso.
      destruct (1024 <? length d)%nat;
        [destruct H as [H|[]]; discriminate H | contradiction].
    + apply boolean_errors_first in H. discriminate H.
  - intros F. right; left.
    destruct (Py.lookup "description" entries) as [|b|z|d|items|es];
      try (now left).
    simpl in F. apply negb_false_iff in F. rewrite F. now left.
Qed.

(** X13. Each of the two boolean fields gets its error exactly when its value
    is neither absent ([None]) nor a boolean; a string such as "yes" or a
    number such as 1 is an error, [false] is not. *)
Theorem boolean_field_reported (field : string) :
  field = "disable-model-invocation" \/ field = "user-invocable" ->
  (In ("'" ++ field ++ "' must be a boolean (true/false)") (errors st')
   <-> Py.lookup field entries <> PyNone
       /\ forall b, Py.lookup field entries <> PyBool b).
Proof.
  intros F.
  change ("'" ++ field ++ "' must be a boolean (true/false)")
    with (not_boolean field).
  assert (B : In (not_boolean field) (errors st')
              <-> In (not_boolean field) (boolean_error entries field)).
  { rewrite in_report_errors. split.
    - intros [H|[H|H]].
      + apply name_errors_first in H.
        destruct F as [-> | ->]; discriminate H.
      + apply description_errors_first in H as [H|H];
          destruct F as [-> | ->]; discriminate H.
      + unfold boolean_errors in H. apply in_app_iff in H as [H|H].
        * destruct F as [-> | ->]; [exact H|].
          unfold boolean_error in H. cbv zeta in H.
          destruct (negb _ && negb _) in H; [|contradiction].
          destruct H as [H|[]]. discriminate H.
        * destruct F as [-> | ->]; [|exact H].
          unfold boolean_error in H. cbv zeta in H.
          destruct (negb _ && negb _) in H; [|contradiction].
          destruct H as [H|[]]. discriminate H.
    - intros H. right; right. unfold boolean_errors. apply in_app_iff.
      destruct F as [-> | ->]; [now left | now right]. }
  rewrite B. unfold boolean_error. cbv zeta.
  destruct (Py.lookup field entries) as [|b|z|s|items|es]; simpl.
  - split; [intros [] | intros [C _]; now elim C].
  - split; [intros [] | intros [_ C]; now elim (C b)].
  - split; [intros _; split; [discriminate | intros ?; discriminate]
           | intros _; now left].
  - split; [intros _; split; [discriminate | intros ?; discriminate]
           | intros _; now left].
  - split; [intros _; split; [discriminate | intros ?; discriminate]
           | intros _; now left].
  - split; [intros _; split; [discriminate | intros ?; discriminate]
           | intros _; now left].
Qed.

End FieldReports.

Lemma sample_metadata_checked :
  SkillValidator._validate_frontmatter
    (my_skill "") (PyDict sample_metadata) empty_state
  = Returned tt (frontmatter_report "my-skill" sample_metadata).
Proof. vm_compute. reflexivity. Qed.

Lemma nameless_metadata_checked :
  SkillValidator._validate_frontmatter
    (my_skill "") (PyDict nameless_metadata) empty_state
  = Returned tt (frontmatter_report "my-skill" nameless_metadata).
Proof. vm_compute. reflexivity. Qed.

Lemma unknown_key_warned_witness :
  In "Unknown frontmatter key: 'colour'"
     (warnings (frontmatter_report "my-skill" sample_metadata))
  <-> In "colour" (map fst sample_metadata)
      /\ ~ In "colour" SkillValidator.VALID_FRONTMATTER_KEYS.
Proof.
  apply (unknown_key_warned (my_skill "") sample_metadata _
           sample_metadata_checked "colour").
Defined.

Lemma name_mismatch_warned_witness :
  In "Name 'Other' doesn't match folder 'my-skill'"
     (warnings (frontmatter_report "my-skill" sample_metadata))
  <-> "Other" <> "my-skill".
Proof.
  apply (name_mismatch_warned (my_skill "") sample_metadata _
           sample_metadata_checked "Other"); [reflexivity | discriminate].
Defined.

Lemma name_errors_reported_witness :
  (In "Name 'Other' exceeds max length (64 chars)"
      (errors (frontmatter_report "my-skill" sample_metadata))
   <-> 64 < length "Other")
  /\ (In "Name 'Other' invalid. Use lowercase, numbers, hyphens only."
         (errors (frontmatter_report "my-skill" sample_metadata))
      <-> "Other" <> ""
          /\ Regex.re_match SkillValidator.NAME_PATTERN "Other" = false).
Proof.
  apply (name_errors_reported (my_skill "") sample_metadata _
           sample_metadata_checked "Other"); reflexivity.
Defined.

Lemma absent_name_warned_witness :
  In "No 'name' field in frontmatter (will use folder name)"
     (warnings (frontmatter_report "my-skill" nameless_metadata))
  /\ forall rest,
      ~ In ("Name '" ++ rest)
           (errors (frontmatter_report "my-skill" nameless_metadata)).
Proof.
  apply (absent_name_warned (my_skill "") nameless_metadata _
           nameless_metadata_checked); reflexivity.
Defined.

Lemma description_length_reported_witness :
  In "Description exceeds max length (1024 chars)"
     (errors (frontmatter_report "my-skill" sample_metadata))
  <-> 1024 < length "I build things".
Proof.
  apply (description_length_reported (my_skill "") sample_metadata _
           sample_metadata_checked "I build things"); reflexivity.
Defined.

Lemma use_when_warned_witness :
  In "Description should include 'Use when...' trigger conditions"
     (warnings (frontmatter_report "my-skill" sample_metadata))
  <-> ~ exists a u b,
        "I build things" = a ++ u ++ b /\ PyStr.lower u = "use when".
Proof.
  apply (use_when_warned (my_skill "") sample_metadata _
           sample_metadata_checked "I build things");
    [reflexivity | discriminate].
Defined.

Lemma first_person_warned_witness :
  In "Description should be in third person (avoid 'I' or 'We')"
     (warnings (frontmatter_report "my-skill" sample_metadata))
  <-> exists u rest,
       "I build things" = u ++ rest
       /\ (PyStr.lower u = "i " \/ PyStr.lower u = "i'"
           \/ PyStr.lower u = "we ").
Proof.
  apply (first_person_warned (my_skill "") sample_metadata _
           sample_metadata_checked "I build things");
    [reflexivity | discriminate].
Defined.

Lemma boolean_field_reported_witness :
  In "'user-invocable' must be a boolean (true/false)"
     (errors (frontmatter_report "my-skill" sample_metadata))
  <-> Py.lookup "user-invocable" sample_metadata <> PyNone
      /\ forall b, Py.lookup "user-invocable" sample_metadata <> PyBool b.
Proof.
  apply (boolean_field_reported (my_skill "") sample_metadata _
           sample_metadata_checked "user-invocable"). now right.
Defined.

(** ** Runs that stop at the structure checks *)

(** X1. Without a [SKILL.md] to read, the run returns one error and nothing
    else: the path is missing, is not a directory, or holds no [SKILL.md].
    The base name is not looked at, and no document check runs. *)
Theorem structure_failure_is_the_only_error
        (safe_load : string -> yaml_result) (env : skill_env) :
  SkillValidator.skill_md env = None ->
  let msg :=
    match fs env with
    | NoSuchPath => "Skill folder does not exist: " ++ path_text env
    | NotADirectory => "Path is not a directory: " ++ path_text env
    | SkillDir _ => "SKILL.md not found in " ++ path_text env
    end in
  SkillValidator.run safe_load env
  = Returned (false, [msg], []) (mkState [msg] []).
Proof.
  intros H. cbv zeta. unfold SkillValidator.run, SkillValidator.validate,
    SkillValidator._validate_skill_md, SkillValidator._validate_folder_structure,
    SkillValidator.skill_md_exists, SkillValidator.path_exists,
    SkillValidator.path_is_dir.
  rewrite H. unfold SkillValidator.skill_md in H.
  destruct (fs env) as [| |md]; [reflexivity | reflexivity |].
  subst md. reflexivity.
Qed.

(** A folder with a malformed name and no [SKILL.md]. *)
Lemma structure_failure_is_the_only_error_witness :
  SkillValidator.run PyYAML.safe_load
    (mkEnv "skills/Bad_Name" "Bad_Name" (SkillDir None))
  = Returned (false, ["SKILL.md not found in skills/Bad_Name"], [])
             (mkState ["SKILL.md not found in skills/Bad_Name"] []).
Proof.
  apply (structure_failure_is_the_only_error PyYAML.safe_load
           (mkEnv "skills/Bad_Name" "Bad_Name" (SkillDir None)) eq_refl).
Defined.

(** ** Validating twice *)

(** X17. [validate] does not clear the accumulators: called again on the same
    validator, it returns every message of the first call twice. *)
Theorem validate_again_doubles_the_report
        (safe_load : string -> yaml_result) (env : skill_env)
        (is_valid : bool) (errs warns : list string) (st : run_state) :
  SkillValidator.run safe_load env = Returned (is_valid, errs, warns) st ->
  SkillValidator.validate safe_load env st
  = Returned (is_valid, (errs ++ errs)%list, (warns ++ warns)%list)
             (mkState (errs ++ errs)%list (warns ++ warns)%list).
Proof.
  unfold SkillValidator.run, SkillValidator.init.
  rewrite !validate_stages.
  rewrite (appends_folder_structure env st).
  destruct (SkillValidator._validate_folder_structure env empty_state)
    as [[] d1|e]; [|discriminate].
  rewrite (appends_validate_skill_md safe_load env (extend st d1)).
  rewrite (appends_validate_skill_md safe_load env d1).
  destruct (SkillValidator._validate_skill_md safe_load env empty_state)
    as [[] d2|e]; [|discriminate].
  intros H. inversion H; subst. rewrite extend_assoc.
  unfold extend; simpl. f_equal. f_equal. f_equal.
  rewrite length_app.
  destruct (errors d1 ++ errors d2)%list; reflexivity.
Qed.

Lemma validate_again_doubles_the_report_witness :
  SkillValidator.validate PyYAML.safe_load (my_skill "# Title")
    (mkState ["Invalid or missing YAML frontmatter"] [])
  = Returned (false,
              ["Invalid or missing YAML frontmatter";
               "Invalid or missing YAML frontmatter"], [])
             (mkState ["Invalid or missing YAML frontmatter";
                       "Invalid or missing YAML frontmatter"] []).
Proof.
  apply (validate_again_doubles_the_report PyYAML.safe_load
           (my_skill "# Title") false
           ["Invalid or missing YAML frontmatter"] []
           (mkState ["Invalid or missing YAML frontmatter"] [])).
  vm_compute. reflexivity.
Defined.

(** ** Frontmatter that is never closed *)

(** X18. A text that opens with the delimiter and holds no other one is a
    parse failure that the decoder never sees: the parser gives [None] and
    records nothing, whatever the decoder would answer. *)
Theorem unterminated_frontmatter_is_not_decoded
        (safe_load : string -> yaml_result) (rest : string)
        (st : run_state) :
  PyStr.contains "---" rest = false ->
  PyStr.split "---" (Some 2) ("---" ++ rest) = [""; rest]
  /\ SkillValidator._parse_frontmatter safe_load ("---" ++ rest) st
     = Returned PyNone st.
Proof.
  intros H.
  assert (S : PyStr.split "---" (Some 2) ("---" ++ rest) = [""; rest]).
  { unfold PyStr.split.
    change (PyStr.split_upto 2 "---" ("---" ++ rest))
      with (match PyStr.find_cut "---" ("---" ++ rest) with
            | None => ["---" ++ rest]
            | Some (a, b) =>
                a :: match PyStr.find_cut "---" b with
                     | None => [b]
                     | Some (a', b') => [a'; b']
                     end
            end).
    rewrite find_cut_eq, prefix_append, drop_append.
    unfold PyStr.contains in H.
    now destruct (PyStr.find_cut "---" rest) as [[? ?]|]. }
  split; [exact S|].
  apply parse_too_few_segments. rewrite S. simpl. lia.
Qed.

(** Four hyphens: the second delimiter would have to overlap the first. *)
Lemma unterminated_frontmatter_is_not_decoded_witness :
  PyStr.split "---" (Some 2) "----" = [""; "-"]
  /\ SkillValidator._parse_frontmatter PyYAML.safe_load "----" empty_state
     = Returned PyNone empty_state.
Proof.
  apply (unterminated_frontmatter_is_not_decoded PyYAML.safe_load "-"
           empty_state).
  reflexivity.
Defined.

(** ** When a run returns *)

Section RunReturns.
Import SkillValidator.

Variable safe_load : string -> yaml_result.
Variable env : skill_env.

(** The parser is the decoder on the metadata block, when there is one:
    a [yaml.YAMLError] is recorded and answered with [None], any other
    exception of the decoder passes through. *)
Lemma parse_outcome (text : string) (st : run_state) :
  _parse_frontmatter safe_load text st
  = match metadata_block text with
    | None => Returned PyNone st
    | Some block =>
        match safe_load block with
        | YamlOk v => Returned v st
        | YamlError detail =>
            Returned PyNone
                     (extend st (mkState ["YAML parsing error: " ++ detail] []))
        | YamlRaises e => Raised e
        end
    end.
Proof.
  unfold _parse_frontmatter, metadata_block.
  destruct (negb (PyStr.startswith "---" text)); [reflexivity|].
  cbv zeta.
  destruct (List.length (PyStr.split "---" (Some 2) text) <? 3)%nat;
    [reflexivity|].
  destruct (safe_load _); [reflexivity| |reflexivity].
  unfold bind, add_error, ret, extend; simpl. now rewrite app_nil_r.
Qed.

Lemma skill_md_outcome (text : string) (st : run_state) :
  skill_md env = Some (ReadOk text) ->
  match metadata_block text with
  | None => exists st', _validate_skill_md safe_load env st = Returned tt st'
  | Some block =>
      match safe_load block with
      | YamlOk v =>
          (exists st', _validate_skill_md safe_load env st = Returned tt st')
          <-> well_typed v = true
      | YamlError _ =>
          exists st', _validate_skill_md safe_load env st = Returned tt st'
      | YamlRaises e => _validate_skill_md safe_load env st = Raised e
      end
  end.
Proof.
  intros H.
  assert (E : _validate_skill_md safe_load env st
              = match _parse_frontmatter safe_load text
                        (mkState (errors st)
                           (warnings st ++ line_count_warnings text)%list)
                with
                | Returned v s1 =>
                    if Py.is_none v
                    then add_error "Invalid or missing YAML frontmatter" s1
                    else bind (_validate_frontmatter env v)
                              (fun _ => _validate_content text) s1
                | Raised e => Raised e
                end).
  { unfold _validate_skill_md. rewrite H.
    unfold bind at 1. rewrite check_line_count_run. unfold bind at 1.
    destruct (_parse_frontmatter safe_load text _) as [v s1|e];
      [destruct (Py.is_none v)|]; reflexivity. }
  rewrite E, parse_outcome. clear E.
  destruct (metadata_block text) as [block|];
    [|eexists; reflexivity].
  destruct (safe_load block) as [v|detail|e];
    [|eexists; reflexivity|reflexivity].
  set (s1 := mkState _ _).
  destruct (Py.is_none v) eqn:N.
  - destruct v; try discriminate N.
    split; [reflexivity | intros _; eexists; reflexivity].
  - unfold bind.
    destruct (_validate_frontmatter env v s1) as [[] st1|e] eqn:F.
    + rewrite validate_content_run. split.
      * intros _. apply (metadata_returns_iff env v s1).
        now exists st1.
      * intros _. eexists; reflexivity.
    + split.
      * intros (? & C). discriminate C.
      * intros W. apply (metadata_returns_iff env v s1) in W.
        destruct W as (st' & C). congruence.
Qed.

(** X2. When [SKILL.md] exists, a run returns its result exactly when the
    file is read as text and one of these holds: the text has no metadata
    block (no opening delimiter, or fewer than three segments); the
    decoder raises [yaml.YAMLError] on the block; the decoder returns
    [None] or a mapping whose [name] and [description] are each falsy or
    a string.  A failed read leaves [validate] with its own exception,
    and so does the decoder when it raises anything that is not a
    [yaml.YAMLError]. *)
Theorem run_returns_iff (doc : read_result) :
  skill_md env = Some doc ->
  ((exists r st, run safe_load env = Returned r st)
   <-> exists text,
         doc = ReadOk text
         /\ match metadata_block text with
            | None => True
            | Some block =>
                match safe_load block with
                | YamlOk v => well_typed v = true
                | YamlError _ => True
                | YamlRaises _ => False
                end
            end)
  /\ (forall e, doc = ReadFails e -> run safe_load env = Raised e)
  /\ (forall text block e,
         doc = ReadOk text ->
         metadata_block text = Some block ->
         safe_load block = YamlRaises e ->
         run safe_load env = Raised e).
Proof.
  intros M. unfold run. rewrite validate_stages.
  destruct (folder_structure_returns env init) as (errs & ->).
  set (st1 := mkState _ _).
  split; [|split].
  - destruct doc as [text|e].
    + pose proof (skill_md_outcome text st1 M) as O.
      split.
      * intros (r & st & H). exists text. split; [reflexivity|].
        destruct (metadata_block text) as [block|]; [|exact I].
        destruct (safe_load block) as [v|detail|x]; [|exact I|].
        -- apply O.
           destruct (_validate_skill_md safe_load env st1) as [[] st2|x];
             [now exists st2 | discriminate H].
        -- rewrite O in H. discriminate H.
      * intros (text' & E & C). injection E as <-.
        assert (R : exists st', _validate_skill_md safe_load env st1
                                = Returned tt st').
        { destruct (metadata_block text) as [block|]; [|exact O].
          destruct (safe_load block) as [v|detail|x];
            [now apply O | exact O | destruct C]. }
        destruct R as (st' & ->). eexists; eexists; reflexivity.
    + split.
      * intros (r & st & H).
        unfold _validate_skill_md in H. rewrite M in H. discriminate H.
      * intros (text & E & _). discriminate E.
  - intros e ->. unfold _validate_skill_md. now rewrite M.
  - intros text block e -> B D.
    pose proof (skill_md_outcome text st1 M) as O.
    rewrite B, D in O. now rewrite O.
Qed.

End RunReturns.

(** A date with month 13 in the metadata: the decoder's [ValueError]
    leaves the run.  A block the decoder rejects with [yaml.YAMLError]:
    the run returns.  A file that is not UTF-8: the error of the read
    leaves the run. *)
Lemma run_returns_iff_witness :
  SkillValidator.run PyYAML.safe_load
    (my_skill ("---" ++ PyStr.nl ++ "name: my-skill" ++ PyStr.nl
               ++ "released: 2024-13-45" ++ PyStr.nl ++ "---" ++ PyStr.nl))
  = Raised ValueError
  /\ (exists r st,
         SkillValidator.run PyYAML.safe_load
           (my_skill ("---" ++ PyStr.nl ++ "@" ++ PyStr.nl ++ "---"
                      ++ PyStr.nl))
         = Returned r st)
  /\ SkillValidator.run PyYAML.safe_load
       (mkEnv "skills/my-skill" "my-skill"
              (SkillDir (Some (ReadFails UnicodeDecodeError))))
     = Raised UnicodeDecodeError.
Proof.
  split; [|split].
  - refine (proj2 (proj2 (run_returns_iff PyYAML.safe_load
                            (my_skill _) (ReadOk _) eq_refl))
                  _ (PyStr.nl ++ "name: my-skill" ++ PyStr.nl
                     ++ "released: 2024-13-45" ++ PyStr.nl)
                  ValueError eq_refl _ _);
      vm_compute; reflexivity.
  - apply (proj1 (run_returns_iff PyYAML.safe_load
                    (my_skill ("---" ++ PyStr.nl ++ "@" ++ PyStr.nl ++ "---"
                               ++ PyStr.nl))
                    (ReadOk _) eq_refl)).
    eexists. split; [reflexivity|]. vm_compute. exact I.
  - apply (proj1 (proj2 (run_returns_iff PyYAML.safe_load
                           (mkEnv "skills/my-skill" "my-skill"
                              (SkillDir (Some (ReadFails UnicodeDecodeError))))
                           (ReadFails UnicodeDecodeError) eq_refl))
             UnicodeDecodeError eq_refl).
Defined.

(** ** The recommended sections *)

(** X14. Each of the three section warnings is appended exactly when no part of
    the whole text (the metadata block included) reads the section's
    pattern once lowercased; "example" is enough for the Examples
    section. *)
Theorem section_warned (content : string) :
  exists st',
    SkillValidator._validate_content content empty_state = Returned tt st'
    /\ (In "Missing recommended section: 'When to Use'" (warnings st')
        <-> ~ exists a u b,
              content = a ++ u ++ b /\ PyStr.lower u = "when to use")
    /\ (In "Missing recommended section: 'Quick Start'" (warnings st')
        <-> ~ exists a u b,
              content = a ++ u ++ b /\ PyStr.lower u = "quick start")
    /\ (In "Missing recommended section: 'Examples'" (warnings st')
        <-> ~ exists a u b,
              content = a ++ u ++ b /\ PyStr.lower u = "example").
Proof.
  eexists. split; [apply validate_content_run|].
  rewrite <- !contains_lower_iff. unfold section_warnings.
  cbn [errors warnings app].
  destruct (PyStr.contains "when to use" (PyStr.lower content));
    destruct (PyStr.contains "quick start" (PyStr.lower content));
    destruct (PyStr.contains "example" (PyStr.lower content));
    destruct (Regex.re_search SkillValidator.ref_pattern content);
    unfold deep_reference_warning; simpl;
    repeat split; try (intros C; now elim C); try tauto;
      try (intros H _;
           repeat match goal with
                  | H : _ \/ _ |- _ => destruct H as [H|H]
                  | H : False |- _ => destruct H
                  | H : _ = _ |- _ => discriminate H
                  end);
      try discriminate.
Qed.

(** ** The names [NAME_PATTERN] accepts *)

(** X15. [NAME_PATTERN.match] accepts the texts made of one or more segments of
    lowercase letters and digits separated by single hyphens, and the same
    texts followed by one line feed; it accepts nothing else. *)
Theorem name_pattern_accepts (s : string) :
  Regex.re_match SkillValidator.NAME_PATTERN s = true <->
  exists seg segs,
    is_segment seg = true
    /\ Forall (fun x => is_segment x = true) segs
    /\ (s = seg ++ join (map (append "-") segs)
        \/ s = (seg ++ join (map (append "-") segs)) ++ PyStr.nl).
Proof.
  rewrite name_pattern_match. split.
  - intros (w & L & E). apply lang_name_body in L as (seg & segs & -> & S & F).
    now exists seg, segs.
  - intros (seg & segs & S & F & E).
    exists (seg ++ join (map (append "-") segs)). split; [|exact E].
    apply lang_name_body. now exists seg, segs.
Qed.

(** ** A document without findings *)

Section CleanPass.
Import PyStr SkillValidator.

Lemma no_unknown_keys (entries : list (string * pyvalue)) :
  Forall (fun k => In k VALID_FRONTMATTER_KEYS) (map fst entries) ->
  key_warnings entries = [].
Proof.
  unfold key_warnings. intros F.
  induction F as [|k ks Hk _ IH]; [reflexivity|].
  cbn [filter]. unfold unknown_key at 1.
  assert (E : existsb (String.eqb k) VALID_FRONTMATTER_KEYS = true)
    by (apply existsb_exists; exists k; split;
        [exact Hk | apply String.eqb_refl]).
  rewrite E. exact IH.
Qed.

(** X16. A document passes without any message when: the folder name is
    well-formed and at most 64 characters long; the metadata block decodes
    to a mapping with recognised keys only, the folder name as [name], a
    description of at most 1024 characters that mentions "use when" and
    does not open in the first person, and no boolean field holding
    anything but a boolean; the text has fewer than 500 line feeds, names
    the three recommended sections and holds no deep reference. *)
Theorem clean_document_passes
        (safe_load : string -> yaml_result) (env : skill_env)
        (block body d : string) (entries : list (string * pyvalue)) :
  skill_md env = Some (ReadOk ("---" ++ block ++ "---" ++ body)) ->
  contains "---" (block ++ "--") = false ->
  safe_load block = YamlOk (PyDict entries) ->
  Regex.re_match NAME_PATTERN (folder_name env) = true ->
  length (folder_name env) <= 64 ->
  Forall (fun k => In k VALID_FRONTMATTER_KEYS) (map fst entries) ->
  Py.lookup "name" entries = PyStr (folder_name env) ->
  Py.lookup "description" entries = PyStr d ->
  length d <= 1024 ->
  contains "use when" (lower d) = true ->
  startswith_any ["i "; "i'"; "we "] (lower d) = false ->
  (forall field,
      field = "disable-model-invocation" \/ field = "user-invocable" ->
      Py.lookup field entries = PyNone
      \/ exists b, Py.lookup field entries = PyBool b) ->
  count_char LF ("---" ++ block ++ "---" ++ body) < 500 ->
  contains "when to use" (lower ("---" ++ block ++ "---" ++ body)) = true ->
  contains "quick start" (lower ("---" ++ block ++ "---" ++ body)) = true ->
  contains "example" (lower ("---" ++ block ++ "---" ++ body)) = true ->
  Regex.re_search ref_pattern ("---" ++ block ++ "---" ++ body) = false ->
  run safe_load env = Returned (true, [], []) empty_state.
Proof.
  intros Hmd Hcut Hdec Hfolder Hflen Hkeys Hname Hdesc Hdlen Huse Hfirst
         Hbool Hlines Hs1 Hs2 Hs3 Href.
  assert (Nf : folder_name env <> "").
  { intros E. rewrite E in Hfolder. vm_compute in Hfolder. discriminate. }
  assert (Nd : d <> "").
  { intros E. rewrite E in Huse. vm_compute in Huse. discriminate. }
  assert (R : frontmatter_report (folder_name env) entries = empty_state).
  { unfold frontmatter_report. rewrite Hname, Hdesc, (no_unknown_keys _ Hkeys).
    unfold name_errors, name_warnings, description_errors,
      description_warnings, boolean_errors, boolean_error. cbv zeta.
    apply String.eqb_neq in Nf, Nd. rewrite Nf, Nd, Hfolder, Huse, Hfirst.
    rewrite String.eqb_refl.
    assert (L1 : (64 <? length (folder_name env))%nat = false)
      by (apply Nat.ltb_ge; lia).
    assert (L2 : (1024 <? length d)%nat = false) by (apply Nat.ltb_ge; lia).
    rewrite L1, L2.
    destruct (Hbool "disable-model-invocation" (or_introl eq_refl))
      as [-> | (b1 & ->)];
      destruct (Hbool "user-invocable" (or_intror eq_refl))
        as [-> | (b2 & ->)]; reflexivity. }
  assert (F : fs env = SkillDir (Some (ReadOk ("---" ++ block ++ "---" ++ body)))).
  { unfold skill_md in Hmd.
    destruct (fs env) as [| |md]; try discriminate. now subst md. }
  unfold run. rewrite validate_stages.
  rewrite (folder_structure_with_skill_md env _ _ F).
  unfold folder_name_errors. rewrite Hfolder.
  unfold _validate_skill_md. rewrite Hmd.
  unfold bind at 1. rewrite check_line_count_run.
  unfold line_count_warnings.
  assert (L : (500 <=? count_char LF ("---" ++ block ++ "---" ++ body))%nat
              = false) by (apply Nat.leb_gt; lia).
  rewrite L. unfold bind at 1.
  rewrite (parse_delimited safe_load block body _ Hcut), Hdec.
  cbn [Py.is_none]. unfold bind.
  rewrite metadata_report_emitted, R.
  - rewrite validate_content_run. unfold section_warnings.
    rewrite Hs1, Hs2, Hs3, Href. reflexivity.
  - unfold well_typed, falsy_or_str. rewrite Hname, Hdesc.
    cbn [is_str]. now rewrite !orb_true_r.
Qed.

End CleanPass.

(** The smallest well-formed skill: name, description, three headings. *)
Lemma clean_document_passes_witness :
  SkillValidator.run PyYAML.safe_load
    (my_skill ("---" ++ PyStr.nl ++ "name: my-skill" ++ PyStr.nl
               ++ "description: does x use when y" ++ PyStr.nl ++ "---"
               ++ PyStr.nl ++ "# When to Use" ++ PyStr.nl
               ++ "## Quick Start" ++ PyStr.nl ++ "## Examples" ++ PyStr.nl))
  = Returned (true, [], []) empty_state.
Proof.
  apply (clean_document_passes PyYAML.safe_load
           (my_skill ("---" ++ PyStr.nl ++ "name: my-skill" ++ PyStr.nl
                      ++ "description: does x use when y" ++ PyStr.nl ++ "---"
                      ++ PyStr.nl ++ "# When to Use" ++ PyStr.nl
                      ++ "## Quick Start" ++ PyStr.nl ++ "## Examples"
                      ++ PyStr.nl))
           (PyStr.nl ++ "name: my-skill" ++ PyStr.nl
            ++ "description: does x use when y" ++ PyStr.nl)
           (PyStr.nl ++ "# When to Use" ++ PyStr.nl
            ++ "## Quick Start" ++ PyStr.nl ++ "## Examples" ++ PyStr.nl)
           "does x use when y"
           [("name", PyStr "my-skill");
            ("description", PyStr "does x use when y")]);
    try reflexivity.
  - simpl. lia.
  - constructor; [simpl; tauto|]. constructor; [simpl; tauto|]. constructor.
  - simpl. lia.
  - intros field [-> | ->]; now left.
  - vm_compute. lia.
Defined.

(** ** Validating every skill of a directory *)

Section AllSkills.
Import Cli.

Variable safe_load : string -> yaml_result.
Variable world : string -> skill_env.
Variable listing : string -> dir_state.

Lemma validate_skill_done (e : dir_entry) :
  skill_returns safe_load world e = true ->
  exists o,
    validate_skill safe_load world (entry_path e)
    = Done (skill_valid safe_load world e) o.
Proof.
  unfold skill_returns, skill_valid, validate_skill.
  destruct (SkillValidator.run safe_load (world (entry_path e)))
    as [[[v errs] warns] st|x]; [|discriminate].
  intros _. eexists; reflexivity.
Qed.

Lemma validate_skill_crashed (e : dir_entry) :
  skill_returns safe_load world e = false ->
  exists x o, validate_skill safe_load world (entry_path e) = Crashed x o.
Proof.
  unfold skill_returns, validate_skill.
  destruct (SkillValidator.run safe_load (world (entry_path e)))
    as [[[v errs] warns] st|x]; [discriminate|].
  intros _. eexists; eexists; reflexivity.
Qed.

(** The loop, when every visited run returns: it counts the visited
    entries and the invalid ones among them. *)
Lemma visit_counts (entries : list dir_entry) :
  (forall e, In e entries -> visible e = true ->
             skill_returns safe_load world e = true) ->
  forall t out,
  exists o,
    visit safe_load world entries t out
    = Done (mkTally
              (skill_count t + List.length (filter visible entries))
              (error_count t
               + List.length
                   (filter (fun e => negb (skill_valid safe_load world e))
                           (filter visible entries)))
              (all_valid t
               && forallb (skill_valid safe_load world)
                          (filter visible entries)))
           (out ++ o)%list.
Proof.
  induction entries as [|e entries IH]; intros R t out.
  - exists []. simpl. rewrite !Nat.add_0_r, andb_true_r, app_nil_r.
    now destruct t.
  - cbn [visit filter]. fold (visible e).
    assert (R' : forall x, In x entries -> visible x = true ->
                           skill_returns safe_load world x = true)
      by (intros x I; apply R; now right).
    destruct (visible e) eqn:V.
    + destruct (validate_skill_done e (R e (or_introl eq_refl) V)) as (o & ->).
      cbn [filter forallb List.length].
      destruct (skill_valid safe_load world e); cbn [negb].
      * destruct (IH R' (mkTally (skill_count t + 1) (error_count t)
                                 (all_valid t)) (out ++ o)%list) as (o' & ->).
        exists (o ++ o')%list. cbn [skill_count error_count all_valid].
        rewrite app_assoc. f_equal. f_equal; lia.
      * destruct (IH R' (mkTally (skill_count t + 1) (error_count t + 1)
                                 false) (out ++ o)%list) as (o' & ->).
        exists (o ++ o')%list. cbn [skill_count error_count all_valid].
        cbn [List.length]. rewrite app_assoc, andb_false_r. simpl.
        f_equal. f_equal; lia.
    + apply IH, R'.
Qed.

(** The loop stops at the first visited run that raises. *)
Lemma visit_crashes (entries : list dir_entry) :
  (exists e, In e entries /\ visible e = true
             /\ skill_returns safe_load world e = false) ->
  forall t out, exists x o, visit safe_load world entries t out = Crashed x o.
Proof.
  induction entries as [|e entries IH]; intros (b & I & V & C) t out.
  - destruct I.
  - cbn [visit]. fold (visible e).
    destruct (visible e) eqn:Ve.
    + destruct (skill_returns safe_load world e) eqn:Re.
      * destruct (validate_skill_done e Re) as (o & ->).
        destruct I as [->|I]; [congruence|].
        destruct (skill_valid safe_load world e); apply IH; now exists b.
      * destruct (validate_skill_crashed e Re) as (x & o & ->).
        eexists; eexists; reflexivity.
    + destruct I as [->|I]; [congruence|].
      apply IH. now exists b.
Qed.

Lemma in_insert_entry (e x : dir_entry) (l : list dir_entry) :
  In x (insert_entry e l) <-> x = e \/ In x l.
Proof.
  induction l as [|y l IH]; simpl.
  - intuition.
  - destruct (String.leb (entry_name e) (entry_name y)); simpl.
    + intuition.
    + rewrite IH. intuition.
Qed.

Lemma in_sorted (x : dir_entry) (l : list dir_entry) :
  In x (sorted l) <-> In x l.
Proof.
  induction l as [|e l IH]; simpl; [reflexivity|].
  rewrite in_insert_entry, IH. intuition.
Qed.

Lemma count_insert_entry (p : dir_entry -> bool) (e : dir_entry)
      (l : list dir_entry) :
  List.length (filter p (insert_entry e l))
  = List.length (filter p (e :: l)).
Proof.
  induction l as [|y l IH]; [reflexivity|].
  cbn [insert_entry].
  destruct (String.leb (entry_name e) (entry_name y)); [reflexivity|].
  cbn [filter] in *. destruct (p y), (p e); cbn [List.length] in *; lia.
Qed.

Lemma count_sorted (p : dir_entry -> bool) (l : list dir_entry) :
  List.length (filter p (sorted l)) = List.length (filter p l).
Proof.
  induction l as [|e l IH]; [reflexivity|].
  cbn [sorted fold_right]. fold (sorted l).
  rewrite count_insert_entry. cbn [filter].
  destruct (p e); cbn [List.length]; now rewrite IH.
Qed.

Lemma filter_filter (p q : dir_entry -> bool) (l : list dir_entry) :
  filter q (filter p l) = filter (fun e => p e && q e) l.
Proof.
  induction l as [|e l IH]; [reflexivity|].
  cbn [filter]. destruct (p e); cbn [filter andb]; [|exact IH].
  destruct (q e); now rewrite IH.
Qed.

Lemma forallb_filter_iff (p q : dir_entry -> bool) (l : list dir_entry) :
  forallb q (filter p l) = true <->
  forall e, In e l -> p e = true -> q e = true.
Proof.
  rewrite forallb_forall. split.
  - intros H e I P. apply H. apply filter_In. now split.
  - intros H e I. apply filter_In in I as [I P]. now apply H.
Qed.

Lemma all_skills_census (skills_dir : string)
        (entries : list dir_entry) :
  listing skills_dir = Dir entries ->
  (forall e, In e entries -> visible e = true ->
             skill_returns safe_load world e = true) ->
  exists (success : bool) (out : list line),
    validate_all_skills safe_load world listing skills_dir
    = Done success
        (out ++
         [[Txt (PyStr.nl ++ rule)];
          [Txt ("SUMMARY: "
                ++ PyStr.of_nat
                     (List.length
                        (filter (fun e => visible e
                                          && skill_valid safe_load world e)
                                entries))
                ++ "/"
                ++ PyStr.of_nat (List.length (filter visible entries))
                ++ " skills valid")%string];
          [Txt rule]])%list
    /\ (success = true <->
        forall e, In e entries -> visible e = true ->
                  skill_valid safe_load world e = true).
Proof.
  intros L R. unfold validate_all_skills. rewrite L.
  assert (R' : forall e, In e (sorted entries) -> visible e = true ->
                         skill_returns safe_load world e = true)
    by (intros e I; apply R; now apply in_sorted).
  destruct (visit_counts (sorted entries) R' (mkTally 0 0 true) [])
    as (o & ->).
  cbn [skill_count error_count all_valid andb app Nat.add].
  exists (forallb (skill_valid safe_load world)
                  (filter visible (sorted entries))), o.
  split.
  - f_equal. f_equal. unfold summary.
    cbn [skill_count error_count].
    rewrite !filter_filter, !count_sorted.
    assert (E : List.length (filter visible entries)
                - List.length
                    (filter (fun e => visible e
                                      && negb (skill_valid safe_load world e))
                            entries)
                = List.length
                    (filter (fun e => visible e
                                      && skill_valid safe_load world e)
                            entries)).
    { clear. induction entries as [|e l IH]; [reflexivity|].
      cbn [filter]. destruct (visible e), (skill_valid safe_load world e);
        cbn [andb negb List.length]; try exact IH.
      - rewrite <- IH.
        assert (List.length
                  (filter (fun e0 => visible e0
                                     && negb (skill_valid safe_load world e0))
                          l)
                <= List.length (filter visible l)).
        { clear. induction l as [|x l IH]; [reflexivity|].
          cbn [filter]. destruct (visible x), ((skill_valid safe_load world) x);
            cbn [andb negb List.length]; lia. }
        lia. }
    now rewrite E.
  - rewrite forallb_filter_iff. split.
    + intros H e I. apply H. now apply (proj2 (in_sorted e entries)).
    + intros H e I. apply H. now apply (proj1 (in_sorted e entries)).
Qed.

(** X19. When every run of a visible entry returns, [validate_all_skills]
    returns; its result is true exactly when each of those runs is valid,
    and the summary gives the number of valid ones out of the number of
    visible ones, in whatever order the system lists the entries.  Files
    and entries whose name starts with a dot are not counted. *)
Theorem validate_all_skills_census (skills_dir : string)
        (entries : list dir_entry) :
  listing skills_dir = Dir entries ->
  (forall e, In e entries -> visible e = true ->
             skill_returns safe_load world e = true) ->
  exists (success : bool) (out : list line),
    validate_all_skills safe_load world listing skills_dir
    = Done success
        (out ++
         [[Txt (PyStr.nl ++ rule)];
          [Txt ("SUMMARY: "
                ++ PyStr.of_nat
                     (List.length
                        (filter (fun e => visible e
                                          && skill_valid safe_load world e)
                                entries))
                ++ "/"
                ++ PyStr.of_nat (List.length (filter visible entries))
                ++ " skills valid")%string];
          [Txt rule]])%list
    /\ (success = true <->
        forall e, In e entries -> visible e = true ->
                  skill_valid safe_load world e = true).
Proof. exact (all_skills_census skills_dir entries). Qed.

(** The report of one skill holds no summary line. *)
Lemma validate_skill_no_summary (skill_path : string) :
  match validate_skill safe_load world skill_path with
  | Done _ o | Crashed _ o => forall l, In l o -> is_summary l = false
  end.
Proof.
  unfold validate_skill.
  assert (B : forall msgs l, In l (map bullet msgs) -> is_summary l = false).
  { intros msgs l H. apply in_map_iff in H as (m & <- & _). reflexivity. }
  assert (H3 : forall l,
             In l [[Txt (PyStr.nl ++ rule)];
                   [Txt ("Validating: " ++ skill_path)]; [Txt rule]] ->
             is_summary l = false).
  { intros l [<-|[<-|[<-|[]]]]; reflexivity. }
  destruct (SkillValidator.run safe_load (world skill_path))
    as [[[v errs] warns] st|x]; [|exact H3].
  intros l H. apply in_app_or in H as [H|H]; [now apply H3|].
  apply in_app_or in H as [H|H].
  - destruct errs as [|m errs]; [destruct H|].
    destruct H as [<-|H]; [reflexivity | now apply (B (m :: errs))].
  - apply in_app_or in H as [H|H].
    + destruct warns as [|m warns]; [destruct H|].
      destruct H as [<-|H]; [reflexivity | now apply (B (m :: warns))].
    + destruct H as [<-|[]]. now destruct v.
Qed.

(** The loop prints the reports of the skills and nothing else. *)
Lemma visit_no_summary (entries : list dir_entry) :
  forall t out,
    (forall l, In l out -> is_summary l = false) ->
    match visit safe_load world entries t out with
    | Done _ o | Crashed _ o => forall l, In l o -> is_summary l = false
    end.
Proof.
  induction entries as [|e entries IH]; intros t out H; [exact H|].
  cbn [visit].
  destruct (entry_is_dir e && negb (PyStr.startswith "." (entry_name e)));
    [|now apply IH].
  pose proof (validate_skill_no_summary (entry_path e)) as V.
  assert (A : forall o, (forall l, In l o -> is_summary l = false) ->
                        forall l, In l (out ++ o)%list ->
                                  is_summary l = false).
  { intros o Ho l I. apply in_app_or in I as [I|I]; [now apply H | now apply Ho]. }
  destruct (validate_skill safe_load world (entry_path e)) as [[] o|x o].
  - apply IH, A, V.
  - apply IH, A, V.
  - apply A, V.
Qed.

(** The exception that ends the loop is the one of a visited run. *)
Lemma visit_crash_source (entries : list dir_entry) :
  forall t out x o,
    visit safe_load world entries t out = Crashed x o ->
    exists e,
      In e entries /\ visible e = true
      /\ SkillValidator.run safe_load (world (entry_path e)) = Raised x.
Proof.
  induction entries as [|e entries IH]; intros t out x o H; [discriminate H|].
  cbn [visit] in H. fold (visible e) in H.
  assert (K : forall t' out',
             visit safe_load world entries t' out' = Crashed x o ->
             exists e0,
               In e0 (e :: entries) /\ visible e0 = true
               /\ SkillValidator.run safe_load (world (entry_path e0))
                  = Raised x).
  { intros t' out' C. destruct (IH _ _ _ _ C) as (e0 & I & R).
    exists e0. split; [now right | exact R]. }
  destruct (visible e) eqn:V; [|now apply (K t out)].
  unfold validate_skill in H.
  destruct (SkillValidator.run safe_load (world (entry_path e)))
    as [[[v errs] warns] st|y] eqn:R.
  - destruct v; eapply K; exact H.
  - injection H as <- _. exists e. split; [now left|]. now split.
Qed.

(** X20. One run that raises takes the whole directory with it:
    [validate_all_skills] returns exactly when every run of a visible
    entry returns.  When one of them raises, [validate_all_skills] ends
    with the exception of such a run, and what it has printed by then
    holds no summary line. *)
Theorem validate_all_skills_returns_iff (skills_dir : string)
        (entries : list dir_entry) :
  listing skills_dir = Dir entries ->
  ((exists success out,
       validate_all_skills safe_load world listing skills_dir
       = Done success out)
   <-> forall e, In e entries -> visible e = true ->
                 skill_returns safe_load world e = true)
  /\ ((exists e, In e entries /\ visible e = true
                 /\ skill_returns safe_load world e = false) ->
      exists x out,
        validate_all_skills safe_load world listing skills_dir
        = Crashed x out
        /\ (exists e,
               In e entries /\ visible e = true
               /\ SkillValidator.run safe_load (world (entry_path e))
                  = Raised x)
        /\ forall l, In l out -> is_summary l = false).
Proof.
  intros L.
  assert (C : (exists e, In e entries /\ visible e = true
                         /\ skill_returns safe_load world e = false) ->
              exists x o,
                visit safe_load world (sorted entries) (mkTally 0 0 true) []
                = Crashed x o).
  { intros (e & I & V & Re).
    apply (visit_crashes (sorted entries)
             (ex_intro _ e (conj (proj2 (in_sorted e entries) I)
                                 (conj V Re)))). }
  split; [split|].
  - intros (success & out & H) e I V.
    destruct (skill_returns safe_load world e) eqn:Re; [reflexivity|]. exfalso.
    unfold validate_all_skills in H. rewrite L in H.
    destruct (C (ex_intro _ e (conj I (conj V Re)))) as (x & o & K).
    rewrite K in H. discriminate H.
  - intros R.
    destruct (all_skills_census skills_dir entries L R)
      as (success & out & H & _).
    eexists; eexists; exact H.
  - intros B. destruct (C B) as (x & o & K).
    exists x, o. unfold validate_all_skills. rewrite L, K.
    split; [reflexivity|]. split.
    + destruct (visit_crash_source _ _ _ _ _ K) as (e & I & V & R).
      exists e. split; [now apply (proj1 (in_sorted e entries))|].
      now split.
    + pose proof (visit_no_summary (sorted entries) (mkTally 0 0 true) []
                    (fun l (F : In l []) => match F with end)) as N.
      now rewrite K in N.
Qed.

End AllSkills.

(** Three skills, a hidden folder and a plain file, listed out of order:
    two of the three skills are valid. *)
Lemma validate_all_skills_census_witness :
  let good :=
    "---" ++ PyStr.nl ++ "description: does x use when y" ++ PyStr.nl
    ++ "---" ++ PyStr.nl in
  let world path :=
    if String.eqb path "skills/beta"
    then mkEnv "skills/beta" "beta" (SkillDir None)
    else if String.eqb path "skills/alpha"
         then mkEnv "skills/alpha" "alpha" (SkillDir (Some (ReadOk good)))
         else mkEnv "skills/gamma" "gamma" (SkillDir (Some (ReadOk good))) in
  let entries :=
    [Cli.mkEntry "skills/gamma" "gamma" true;
     Cli.mkEntry "skills/.git" ".git" true;
     Cli.mkEntry "skills/beta" "beta" true;
     Cli.mkEntry "skills/README.md" "README.md" false;
     Cli.mkEntry "skills/alpha" "alpha" true] in
  exists success out,
    Cli.validate_all_skills PyYAML.safe_load world (fun _ => Cli.Dir entries)
                            "skills"
    = Cli.Done success
        (out ++ [[Cli.Txt (PyStr.nl ++ Cli.rule)];
                 [Cli.Txt "SUMMARY: 2/3 skills valid"];
                 [Cli.Txt Cli.rule]])%list
    /\ (success = true <->
        forall e, In e entries -> visible e = true ->
                  skill_valid PyYAML.safe_load world e = true).
Proof.
  cbv zeta.
  match goal with
  | |- exists success out,
        Cli.validate_all_skills ?sl ?w ?l ?d = _ /\ (_ <-> forall e, In e ?es -> _) =>
      destruct (validate_all_skills_census sl w l d es eq_refl)
        as (success & out & H & I)
  end.
  - intros e [<-|[<-|[<-|[<-|[<-|[]]]]]]; intros V;
      try discriminate V; vm_compute; reflexivity.
  - exists success, out. split; [exact H | exact I].
Defined.

(** Three skills of which the second has a plain string for metadata: the
    run stops there with its [AttributeError], after the report of the
    first skill and the header of the second. *)
Lemma validate_all_skills_returns_iff_witness :
  let good :=
    "---" ++ PyStr.nl ++ "description: does x use when y" ++ PyStr.nl
    ++ "---" ++ PyStr.nl in
  let bad := "---" ++ PyStr.nl ++ "hello" ++ PyStr.nl ++ "---" ++ PyStr.nl in
  let world path :=
    if String.eqb path "skills/beta"
    then mkEnv "skills/beta" "beta" (SkillDir (Some (ReadOk bad)))
    else if String.eqb path "skills/alpha"
         then mkEnv "skills/alpha" "alpha" (SkillDir (Some (ReadOk good)))
         else mkEnv "skills/gamma" "gamma" (SkillDir (Some (ReadOk good))) in
  let entries :=
    [Cli.mkEntry "skills/gamma" "gamma" true;
     Cli.mkEntry "skills/beta" "beta" true;
     Cli.mkEntry "skills/alpha" "alpha" true] in
  exists out,
    Cli.validate_all_skills PyYAML.safe_load world (fun _ => Cli.Dir entries)
                            "skills"
    = Cli.Crashed AttributeError out
    /\ In [Cli.Txt "Validating: skills/alpha"] out
    /\ In [Cli.Txt "Validating: skills/beta"] out
    /\ ~ In [Cli.Txt "Validating: skills/gamma"] out
    /\ forall l, In l out -> is_summary l = false.
Proof.
  cbv zeta.
  match goal with
  | |- exists out, Cli.validate_all_skills ?sl ?w ?l ?d = _ /\ _ =>
      destruct (proj2 (validate_all_skills_returns_iff sl w l d
                         [Cli.mkEntry "skills/gamma" "gamma" true;
                          Cli.mkEntry "skills/beta" "beta" true;
                          Cli.mkEntry "skills/alpha" "alpha" true] eq_refl))
        as (x & out & E & _ & S)
  end.
  - exists (Cli.mkEntry "skills/beta" "beta" true).
    split; [right; now left|]. split; vm_compute; reflexivity.
  - exists out. pose proof E as E'. vm_compute in E'.
    injection E' as <- <-.
    split; [exact E|]. split; [vm_compute; tauto|].
    split; [vm_compute; tauto|]. split; [|exact S].
    vm_compute. intros H.
    repeat match goal with
           | H : _ \/ _ |- _ => destruct H as [H|H]
           | H : False |- _ => destruct H
           | H : _ = _ |- _ => discriminate H
           end.
Defined.

(** ** The exit status *)

Lemma run_flag (safe_load : string -> yaml_result) (env : skill_env)
      (v : bool) (errs warns : list string) (st : run_state) :
  SkillValidator.run safe_load env = Returned (v, errs, warns) st ->
  (v = true <-> errs = []).
Proof.
  unfold SkillValidator.run. rewrite validate_stages.
  destruct (SkillValidator._validate_folder_structure env SkillValidator.init)
    as [[] st1|e]; [|discriminate].
  destruct (SkillValidator._validate_skill_md safe_load env st1)
    as [[] st2|e]; [|discriminate].
  intros H; inversion H; subst.
  destruct (errors st); split; try reflexivity; discriminate.
Qed.


(** X21. [main] prints the usage text and exits with 1 when no argument is
    given, and with 0, without validating anything, for [--help] and [-h].
    For a path argument it exits with 0 exactly when the run of that skill
    returns no error, with 1 exactly when it returns at least one, and it
    ends in an uncaught exception exactly when the run raises. *)
Theorem main_exit_status
        (safe_load : string -> yaml_result) (world : string -> skill_env)
        (listing : string -> Cli.dir_state) (prog arg : string)
        (rest : list string) :
  (Cli.main safe_load world listing [] = Cli.Exit 1 [[Cli.Txt Cli.usage]]
   /\ Cli.main safe_load world listing [prog]
      = Cli.Exit 1 [[Cli.Txt Cli.usage]]
   /\ Cli.main safe_load world listing (prog :: "--help" :: rest)
      = Cli.Exit 0 [[Cli.Txt Cli.usage]]
   /\ Cli.main safe_load world listing (prog :: "-h" :: rest)
      = Cli.Exit 0 [[Cli.Txt Cli.usage]])
  /\ (arg <> "--all" -> arg <> "--help" -> arg <> "-h" ->
      ((exists out,
           Cli.main safe_load world listing (prog :: arg :: rest)
           = Cli.Exit 0 out)
       <-> exists warns st,
            SkillValidator.run safe_load (world arg)
            = Returned (true, [], warns) st)
      /\ ((exists out,
              Cli.main safe_load world listing (prog :: arg :: rest)
              = Cli.Exit 1 out)
          <-> exists errs warns st,
               errs <> []
               /\ SkillValidator.run safe_load (world arg)
                  = Returned (false, errs, warns) st)
      /\ ((exists e out,
              Cli.main safe_load world listing (prog :: arg :: rest)
              = Cli.Uncaught e out)
          <-> exists e, SkillValidator.run safe_load (world arg) = Raised e)).
Proof.
  split; [repeat split|].
  intros A H1 H2. unfold Cli.main.
  apply String.eqb_neq in A, H1, H2. rewrite A, H1, H2. cbn [orb].
  unfold Cli.finish, Cli.validate_skill.
  destruct (SkillValidator.run safe_load (world arg))
    as [[[v errs] warns] st|x] eqn:R.
  - pose proof (run_flag safe_load (world arg) _ _ _ _ R) as V.
    destruct v.
    + assert (E : errs = []) by now apply V.
      subst errs. repeat split.
      * intros _. now exists warns, st.
      * intros _. eexists; reflexivity.
      * intros (out & C). discriminate C.
      * intros (errs & w & s & N & C). discriminate C.
      * intros (e & out & C). discriminate C.
      * intros (e & C). discriminate C.
    + assert (E : errs <> []) by (intros E; apply V in E; discriminate E).
      repeat split.
      * intros (out & C). discriminate C.
      * intros (w & s & C). discriminate C.
      * intros _. now exists errs, warns, st.
      * intros _. eexists; reflexivity.
      * intros (e & out & C). discriminate C.
      * intros (e & C). discriminate C.
  - repeat split.
    + intros (out & C). discriminate C.
    + intros (w & s & C). discriminate C.
    + intros (out & C). discriminate C.
    + intros (errs & w & s & N & C). discriminate C.
    + intros _. now exists x.
    + intros _. eexists; eexists; reflexivity.
Qed.

(** A skill without frontmatter: exit status 1. *)
Lemma main_exit_status_witness :
  (exists out,
      Cli.main PyYAML.safe_load (fun _ => my_skill "# Title")
               (fun _ => Cli.NoDir) ["validate-skill.py"; "skills/my-skill"]
      = Cli.Exit 1 out)
  <-> exists errs warns st,
       errs <> []
       /\ SkillValidator.run PyYAML.safe_load (my_skill "# Title")
          = Returned (false, errs, warns) st.
Proof.
  destruct (main_exit_status PyYAML.safe_load (fun _ => my_skill "# Title")
              (fun _ => Cli.NoDir) "validate-skill.py" "skills/my-skill" [])
    as (_ & H).
  destruct H as (_ & H & _); [discriminate | discriminate | discriminate|].
  exact H.
Defined.

Lemma missing_description_reported_witness :
  In "Missing required 'description' field"
     (errors (frontmatter_report "my-skill" [("name", PyStr "my-skill")]))
  <-> Py.truthy (Py.lookup "description" [("name", PyStr "my-skill")]) = false.
Proof.
  apply (missing_description_reported (my_skill "")
           [("name", PyStr "my-skill")] _).
  vm_compute. reflexivity.
Defined.

(** X22. With [--all], [main] exits with 1 when there is no [skills] directory;
    when there is one and every run of a visible entry returns, it exits
    with 0 exactly when all of them are valid and with 1 exactly when one
    of them is not. *)
Theorem main_all_exit_status
        (safe_load : string -> yaml_result) (world : string -> skill_env)
        (listing : string -> Cli.dir_state) (prog : string)
        (rest : list string) :
  (listing "skills" = Cli.NoDir ->
   Cli.main safe_load world listing (prog :: "--all" :: rest)
   = Cli.Exit 1 [[Cli.Txt "Skills directory not found: skills"]])
  /\ (forall entries,
         listing "skills" = Cli.Dir entries ->
         (forall e, In e entries -> visible e = true ->
                    skill_returns safe_load world e = true) ->
         ((exists out,
              Cli.main safe_load world listing (prog :: "--all" :: rest)
              = Cli.Exit 0 out)
          <-> forall e, In e entries -> visible e = true ->
                        skill_valid safe_load world e = true)
         /\ ((exists out,
                 Cli.main safe_load world listing (prog :: "--all" :: rest)
                 = Cli.Exit 1 out)
             <-> exists e, In e entries /\ visible e = true
                           /\ skill_valid safe_load world e = false)).
Proof.
  split.
  - intros L. unfold Cli.main, Cli.validate_all_skills. simpl String.eqb.
    cbv iota. now rewrite L.
  - intros entries L R.
    destruct (all_skills_census safe_load world listing "skills"
                entries L R) as (success & out & H & V).
    unfold Cli.main. simpl String.eqb. cbv iota. rewrite H.
    unfold Cli.finish.
    assert (D : success = false <->
                exists e, In e entries /\ visible e = true
                          /\ skill_valid safe_load world e = false).
    { split.
      - intros F.
        destruct (forallb (fun e => negb (visible e)
                                    || skill_valid safe_load world e)
                          entries) eqn:A.
        + assert (T : success = true).
          { apply V. intros e I Ve.
            rewrite forallb_forall in A. specialize (A e I).
            rewrite Ve in A. exact A. }
          congruence.
        + assert (X : exists e, In e entries
                                /\ (negb (visible e)
                                    || skill_valid safe_load world e) = false).
          { clear - A. induction entries as [|e l IH]; [discriminate|].
            simpl in A. apply andb_false_iff in A as [A|A].
            - exists e. split; [now left | exact A].
            - destruct (IH A) as (x & I & Hx). exists x.
              split; [now right | exact Hx]. }
          destruct X as (e & I & Hx).
          apply orb_false_elim in Hx as [Hv Hs].
          apply negb_false_iff in Hv. now exists e.
      - intros (e & I & Ve & F).
        destruct success; [|reflexivity].
        assert (T : skill_valid safe_load world e = true)
          by (apply V; [reflexivity | exact I | exact Ve]).
        congruence. }
    destruct success; split; split.
    + intros _. now apply V.
    + intros _. eexists; reflexivity.
    + intros (o & C). discriminate C.
    + intros X. apply D in X. discriminate X.
    + intros (o & C). discriminate C.
    + intros A. assert (T : false = true) by now apply V. discriminate T.
    + intros _. now apply D.
    + intros _. eexists; reflexivity.
Qed.

(** No [skills] directory: exit status 1. *)
Lemma main_all_exit_status_witness :
  Cli.main PyYAML.safe_load (fun _ => my_skill "") (fun _ => Cli.NoDir)
           ["validate-skill.py"; "--all"]
  = Cli.Exit 1 [[Cli.Txt "Skills directory not found: skills"]].
Proof.
  apply (main_all_exit_status PyYAML.safe_load (fun _ => my_skill "")
           (fun _ => Cli.NoDir) "validate-skill.py" []).
  reflexivity.
Defined.
